(** * traffic_duck: the extract / transform / load pipeline

    A shallow embedding of the parsing, transformation and loading code of
    the repository (extract_traffic.py, extract_weather.py,
    traffic_transform.py, load_duckdb.py, main.py) together with the
    properties of its specification.

    Conventions of the embedding:
    - Python floats are IEEE-754 binary64 numbers, [spec_float] with
      precision 53 and maximal exponent 1024; NaN is pandas' null of a
      numeric column.
    - A Python [dict] whose key order is irrelevant is a [gmap string _];
      a [pandas.DataFrame] is its list of column names with its rows, each
      row a record from column name to cell.
    - Code that can raise returns a [result]; a [try]/[except] is a match
      on it.
    - Library calls whose own code is outside the repository
      ([ET.fromstring], [json.loads], [float], [pd.to_numeric],
      [pd.read_parquet]) are section variables. *)

From Stdlib Require Import ZArith List Bool Ascii String Lia DecimalString.
From Stdlib Require Import SpecFloat.
From stdpp Require Import base option list gmap strings.

#[local] Set Warnings "-clear-no-such-hyp".

Import ListNotations.
Local Open Scope string_scope.
Local Open Scope list_scope.
Local Open Scope Z_scope.

(** ** Exceptions *)

Inductive exn : Type :=
| ParseError | JSONDecodeError | ValueError | TypeError | AttributeError
| IndexError | KeyError | OverflowError | IOError | DatabaseError.

Inductive result (A : Type) : Type :=
| Ok (a : A)
| Raise (e : exn).
Arguments Ok {A} a.
Arguments Raise {A} e.

#[global] Instance result_ret : MRet result := fun _ a => Ok a.
#[global] Instance result_bind : MBind result := fun _ _ k m =>
  match m with
  | Ok a => k a
  | Raise e => Raise e
  end.

(** ** binary64 arithmetic *)

Module F64.
Definition prec : Z := 53.
Definition emax : Z := 1024.

Definition float : Type := spec_float.

Definition nan : float := S754_nan.
Definition zero : float := S754_zero false.

Definition mul : float -> float -> float := SFmul prec emax.
Definition div : float -> float -> float := SFdiv prec emax.
Definition add : float -> float -> float := SFadd prec emax.
Definition leb : float -> float -> bool := SFleb.
Definition ltb : float -> float -> bool := SFltb.

(** The binary64 number nearest to an integer (ties to even); exact up
    to [2^53] in magnitude. *)
Definition of_Z (z : Z) : float := binary_normalize prec emax z 0 false.

Definition is_nan (x : float) : bool :=
  match x with S754_nan => true | _ => false end.

Definition is_infinite (x : float) : bool :=
  match x with S754_infinity _ => true | _ => false end.

(** A decimal literal [m / 10^k], correctly rounded when [m] and [10^k]
    are below [2^53]: [dec 3625 2] is [36.25]. *)
Definition dec (m : Z) (k : Z) : float := div (of_Z m) (of_Z (10 ^ k)).
End F64.

Abbreviation float := F64.float.

(** Python's conversion of an [int] operand to [float] in mixed
    arithmetic: it raises OverflowError when the integer is outside the
    binary64 range. *)
Definition float_of_int (z : Z) : result float :=
  let f := F64.of_Z z in
  if F64.is_infinite f then Raise OverflowError else Ok f.

(** ** Python values and pandas tables *)

(** The value [json.loads] returns.  An object keeps its members in
    document order; a later member of the same name overwrites an earlier
    one, as in the [dict] Python builds. *)
#[warnings="-register-all"]
Inductive json : Type :=
| JNull
| JBool (b : bool)
| JInt (z : Z)
| JFloat (f : float)
| JStr (s : string)
| JArr (items : list json)
| JObj (members : list (string * json)).

(** A cell of a table. *)
Inductive value : Type :=
| VNone
| VBool (b : bool)
| VInt (z : Z)
| VFloat (f : float)
| VStr (s : string)
| VCoords (cs : list (float * float))
| VObj (j : json).

(** pandas' [isna]: [None] and NaN. *)
Definition is_null (v : value) : bool :=
  match v with
  | VNone => true
  | VFloat f => F64.is_nan f
  | _ => false
  end.

Record DataFrame : Type := mkDataFrame {
  columns : list string;
  rows : list (gmap string value)
}.

(** [pd.DataFrame()] *)
Definition empty_frame : DataFrame := mkDataFrame [] [].

(** [df.empty]: some axis has length zero. *)
Definition df_empty (df : DataFrame) : bool :=
  match columns df, rows df with
  | _ :: _, _ :: _ => false
  | _, _ => true
  end.

(** A cell that a row does not carry reads as null. *)
Definition cell (r : gmap string value) (col : string) : value :=
  default VNone (r !! col).

(** [df[col]] *)
Definition column (df : DataFrame) (col : string) : list value :=
  (fun r => cell r col) <$> rows df.

(** [df[col] = f(df[col])], cell by cell. *)
Definition map_column (f : value -> value) (col : string) (df : DataFrame)
    : DataFrame :=
  mkDataFrame (columns df) ((fun r => <[col := f (cell r col)]> r) <$> rows df).

(** [pd.concat(dfs, ignore_index=True)]: the union of the columns in
    order of first appearance, and the rows of each frame in turn; a
    column a frame lacks reads as null in its rows. *)
Definition pd_concat (dfs : list DataFrame) : DataFrame :=
  mkDataFrame
    (foldl (fun acc df => acc ++ list_difference (columns df) acc) [] dfs)
    (mjoin (rows <$> dfs)).

(** The numeric reading [Series.mean] makes of a cell: nulls are skipped,
    a cell that is not a number is a TypeError. *)
Definition numeric_cell (v : value) : result (option float) :=
  match v with
  | VNone => Ok None
  | VFloat f => Ok (if F64.is_nan f then None else Some f)
  | VInt z => Ok (Some (F64.of_Z z))
  | VBool b => Ok (Some (F64.of_Z (if b then 1 else 0)))
  | VStr _ | VCoords _ | VObj _ => Raise TypeError
  end.

Fixpoint numeric_cells (s : list value) : result (list float) :=
  match s with
  | [] => Ok []
  | v :: s' =>
      x ← numeric_cell v;
      xs ← numeric_cells s';
      Ok (match x with Some f => f :: xs | None => xs end)
  end.

(** Sum over count, accumulated from the left; [0/0] is NaN. *)
Definition arithmetic_mean (xs : list float) : float :=
  F64.div (foldl F64.add F64.zero xs) (F64.of_Z (Z.of_nat (length xs))).

(** [Series.mean()], which skips nulls. *)
Definition Series_mean (s : list value) : result float :=
  xs ← numeric_cells s;
  Ok (arithmetic_mean xs).

(** ** traffic_transform.py: the derived travel time (lines 81-105) *)

(** [route_distance_meters] is a local constant of the function. *)
Definition route_distance_meters : option Z := Some 5000.

(** Lines 88-105, with the route distance as an argument.  The average is
    the value of [averages.get("average_currentSpeed_kmph")]: [None] or a
    float, so [isinstance(avg, (int, float))] is [avg is not None]. *)
Definition estimate_travel_time (distance : option Z)
    (avg_current_speed_kmph : option float) : result (option float) :=
  match avg_current_speed_kmph, distance with
  | Some kmph, Some d =>
      if F64.leb F64.zero kmph && (0 <? d) then
        let avg_current_speed_mps :=
          F64.div (F64.mul kmph (F64.of_Z 1000)) (F64.of_Z 3600) in
        if F64.ltb F64.zero avg_current_speed_mps then
          fd ← float_of_int d;
          Ok (Some (F64.div fd avg_current_speed_mps))
        else Ok None
      else Ok None
  | _, _ => Ok None
  end.

(** ** traffic_transform.py: [transform_traffic_data] *)

Definition numeric_cols_for_avg : list string :=
  ["currentSpeed"; "freeFlowSpeed"; "currentTravelTime"; "freeFlowTravelTime";
   "confidence"].

(** Lines 57-64: the key under which the mean of a present column goes. *)
Definition avg_key (col : string) : string :=
  if bool_decide (col ∈ ["currentSpeed"; "freeFlowSpeed"]) then
    "average_" +:+ col +:+ "_kmph"
  else if bool_decide (col ∈ ["currentTravelTime"; "freeFlowTravelTime"]) then
    "average_" +:+ col +:+ "_seconds_per_segment"
  else if bool_decide (col = "confidence") then
    "average_" +:+ col +:+ "_unitless"
  else "average_" +:+ col.

(** Lines 55-70: one turn of the loop over [numeric_cols_for_avg].  A
    value [None] of the mapping is Python's [None]. *)
Definition averages_step (combined_df : DataFrame)
    (averages : gmap string (option float)) (col : string)
    : result (gmap string (option float)) :=
  if bool_decide (col ∈ columns combined_df) then
    m ← Series_mean (column combined_df col);
    Ok (<[avg_key col := Some m]> averages)
  else
    match averages !! ("average_" +:+ col) with
    | None => Ok (<["average_" +:+ col := None]> averages)
    | Some _ => Ok averages
    end.

Fixpoint foldlM {A B} (f : A -> B -> result A) (a : A) (l : list B) : result A :=
  match l with
  | [] => Ok a
  | b :: l' => a' ← f a b; foldlM f a' l'
  end.

Definition compute_averages (combined_df : DataFrame)
    : result (gmap string (option float)) :=
  foldlM (averages_step combined_df) ∅ numeric_cols_for_avg.

(** [averages.get(key)] *)
Definition dict_get {A} (d : gmap string (option A)) (key : string) : option A :=
  mjoin (d !! key).

Section Transform.

(** [pd.read_parquet]: the table stored under a path, or the exception
    reading it raises. *)
Variable read_parquet : string -> result DataFrame.

(** Lines 29-38: a file whose read raises is skipped. *)
Definition read_all (file_paths : list string) : list DataFrame :=
  foldl (fun all_dataframes f_path =>
           match read_parquet f_path with
           | Ok df => all_dataframes ++ [df]
           | Raise _ => all_dataframes
           end) [] file_paths.

Definition transform_traffic_data (file_paths : list string)
    : result (DataFrame * gmap string (option float) * option float) :=
  match file_paths with
  | [] => Ok (empty_frame, ∅, None)
  | _ =>
      match read_all file_paths with
      | [] => Ok (empty_frame, ∅, None)
      | all_dataframes =>
          let combined_df := pd_concat all_dataframes in
          averages ← compute_averages combined_df;
          let avg_current_speed_kmph :=
            dict_get averages "average_currentSpeed_kmph" in
          estimated_travel_time_seconds ←
            estimate_travel_time route_distance_meters avg_current_speed_kmph;
          Ok (combined_df, averages, estimated_travel_time_seconds)
      end
  end.

End Transform.

(** ** extract_traffic.py: [parse_traffic_response_to_dataframe] *)

(** An [xml.etree.ElementTree.Element]: tag, text before the first child
    ([None] when there is none) and children in document order. *)
#[warnings="-register-all"]
Inductive Element : Type :=
| Elem (tag : string) (text : option string) (children : list Element).

Definition tag (e : Element) : string := let 'Elem t _ _ := e in t.
Definition text (e : Element) : option string := let 'Elem _ s _ := e in s.
Definition children (e : Element) : list Element := let 'Elem _ _ cs := e in cs.

(** [e.find(name)]: the first child of that tag. *)
Definition find (name : string) (e : Element) : option Element :=
  List.find (fun c => String.eqb (tag c) name) (children e).

(** [e.findall(name)]: all children of that tag, in order. *)
Definition findall (name : string) (e : Element) : list Element :=
  List.filter (fun c => String.eqb (tag c) name) (children e).

(** A Python [dict] in insertion order, for the records a table is built
    from. *)
Fixpoint dict_set {A} (key : string) (v : A) (d : list (string * A))
    : list (string * A) :=
  match d with
  | [] => [(key, v)]
  | (k, x) :: d' =>
      if String.eqb k key then (k, v) :: d' else (k, x) :: dict_set key v d'
  end.

(** [pd.DataFrame(records)] *)
Definition DataFrame_of_records (records : list (list (string * value)))
    : DataFrame :=
  mkDataFrame
    (foldl (fun acc r => acc ++ list_difference (r.*1) acc) [] records)
    (list_to_map <$> records).

Definition ascii_lower (c : ascii) : ascii :=
  let n := N_of_ascii c in
  if (65 <=? n)%N && (n <=? 90)%N then ascii_of_N (n + 32) else c.

(** [str.lower] on the ASCII letters. *)
Fixpoint lower (s : string) : string :=
  match s with
  | EmptyString => EmptyString
  | String c s' => String (ascii_lower c) (lower s')
  end.

(** [series.astype(str).str.lower() == 'true'] on one cell: [None] reads
    "None", [True] reads "True", and the text of a number or of a
    container is never "true". *)
Definition str_lower_is_true (v : value) : bool :=
  match v with
  | VStr s => String.eqb (lower s) "true"
  | VBool b => b
  | _ => false
  end.

Definition scalar_tags : list string :=
  ["frc"; "currentSpeed"; "freeFlowSpeed"; "currentTravelTime";
   "freeFlowTravelTime"; "confidence"; "roadClosure"].

Definition numeric_cols : list string :=
  ["currentSpeed"; "freeFlowSpeed"; "currentTravelTime"; "freeFlowTravelTime";
   "confidence"].

(** The integers of the dtypes int64 and uint64. *)
Definition fits_64_bits (z : Z) : bool :=
  (-9223372036854775808 <=? z) && (z <=? 18446744073709551615).

(** [element.text if element is not None else None] *)
Definition text_or_none (element : option Element) : value :=
  match element with
  | Some e => match text e with Some s => VStr s | None => VNone end
  | None => VNone
  end.

(** The member of a JSON object under a key: the last one of that name. *)
Fixpoint members_lookup (key : string) (members : list (string * json))
    : option json :=
  match members with
  | [] => None
  | (k, v) :: members' =>
      match members_lookup key members' with
      | Some v' => Some v'
      | None => if String.eqb k key then Some v else None
      end
  end.

(** The Python value of a JSON value as a cell; [None] for a key that
    [get] did not find. *)
Definition value_of_json (v : option json) : value :=
  match v with
  | None | Some JNull => VNone
  | Some (JBool b) => VBool b
  | Some (JInt z) => VInt z
  | Some (JFloat f) => VFloat f
  | Some (JStr s) => VStr s
  | Some (JArr items) => VObj (JArr items)
  | Some (JObj members) => VObj (JObj members)
  end.

Definition weather_numeric_cols : list string :=
  ["latitude"; "longitude"; "temperature_celsius"; "feels_like_celsius";
   "pressure_hpa"; "humidity_percent"; "wind_speed_mps"; "wind_deg";
   "cloudiness_percent"].

Section Parsers.

(** [ET.fromstring]: the root of a well-formed document, ParseError
    otherwise. *)
Variable ET_fromstring : string -> result Element.

(** [float(s)]: ValueError when [s] does not spell a number. *)
Variable py_float : string -> result float.

(** [pd.to_numeric(errors='coerce')] on a cell that the one-row column
    holds as an object and that is not an integer a float can take: the
    number a string spells, NaN when it spells none. *)
Variable coerce_object : value -> value.

(** [pd.to_numeric(df[col], errors='coerce')] on the cell of a one-row
    column.  A float makes a float64 column and an integer that fits 64
    bits an int64 or uint64 column, which are returned as they are; None
    becomes NaN; a larger integer is held as an object and converted to
    the nearest float. *)
Definition to_numeric_coerce (v : value) : value :=
  match v with
  | VNone => VFloat F64.nan
  | VFloat _ => v
  | VInt z =>
      if fits_64_bits z then v
      else
        let x := F64.of_Z z in
        if F64.is_infinite x then coerce_object v else VFloat x
  | _ => coerce_object v
  end.

(** Lines 144-145:
    [float(e.text) if e is not None and e.text else None] *)
Definition read_degree (e : option Element) : result (option float) :=
  match e with
  | Some el =>
      match text el with
      | Some s =>
          if String.eqb s "" then Ok None
          else (x ← py_float s; Ok (Some x))
      | None => Ok None
      end
  | None => Ok None
  end.

(** Lines 140-147: the loop over the [coordinate] entries. *)
Fixpoint read_coordinates (entries : list Element)
    (coordinates_list : list (float * float)) : result (list (float * float)) :=
  match entries with
  | [] => Ok coordinates_list
  | coord_elem :: entries' =>
      lat ← read_degree (find "latitude" coord_elem);
      lon ← read_degree (find "longitude" coord_elem);
      match lat, lon with
      | Some la, Some lo =>
          read_coordinates entries' (coordinates_list ++ [(la, lo)])
      | _, _ => read_coordinates entries' coordinates_list
      end
  end.

(** Lines 128-152: the record of a parsed document. *)
Definition segment_record (root : Element) : result (list (string * value)) :=
  let segment_data :=
    foldl (fun d name => dict_set name (text_or_none (find name root)) d)
          [] scalar_tags in
  coordinates_list ←
    match find "coordinates" root with
    | Some coords_element =>
        read_coordinates (findall "coordinate" coords_element) []
    | None => Ok []
    end;
  let segment_data :=
    dict_set "coordinate_count"
             (VInt (Z.of_nat (length coordinates_list))) segment_data in
  let segment_data :=
    dict_set "coordinates" (VCoords coordinates_list) segment_data in
  Ok segment_data.

(** Lines 154-168: the table and its coercions. *)
Definition coerce_traffic_frame (df : DataFrame) : DataFrame :=
  let df :=
    foldl (fun df col =>
             if bool_decide (col ∈ columns df)
             then map_column to_numeric_coerce col df else df)
          df numeric_cols in
  if bool_decide ("roadClosure" ∈ columns df)
  then map_column (fun v => VBool (str_lower_is_true v)) "roadClosure" df
  else df.

(** The body of the [try]. *)
Definition parse_traffic_body (xml_data : string) : result DataFrame :=
  root ← ET_fromstring xml_data;
  segment_data ← segment_record root;
  Ok (coerce_traffic_frame (DataFrame_of_records [segment_data])).

(** An empty payload, a ParseError and any other exception all end in
    [pd.DataFrame()]. *)
Definition parse_traffic_response_to_dataframe (xml_data : string)
    : DataFrame :=
  if String.eqb xml_data "" then empty_frame
  else
    match parse_traffic_body xml_data with
    | Ok df => df
    | Raise _ => empty_frame
    end.

(** *** extract_weather.py: [parse_weather_response_to_dataframe] *)

(** [json.loads]: JSONDecodeError when the text is not JSON. *)
Variable json_loads : string -> result json.

(** [d.get(key)] on the value [d]: only a [dict] has the method. *)
Definition json_get (d : json) (key : string) : result (option json) :=
  match d with
  | JObj members => Ok (members_lookup key members)
  | _ => Raise AttributeError
  end.

(** [d.get(key, dflt)]: the default stands in for a missing key only,
    not for a member whose value is null. *)
Definition json_get_default (d : json) (key : string) (dflt : json)
    : result json :=
  v ← json_get d key; Ok (default dflt v).

(** [x[0]] *)
Definition json_index0 (x : json) : result json :=
  match x with
  | JArr (item :: _) => Ok item
  | JArr [] => Raise IndexError
  | JStr (String c _) => Ok (JStr (String c EmptyString))
  | JStr EmptyString => Raise IndexError
  | JObj _ => Raise KeyError
  | _ => Raise TypeError
  end.

(** [data.get(outer, {}).get(inner)] *)
Definition nested_field (data : json) (outer inner : string) : result value :=
  section ← json_get_default data outer (JObj []);
  v ← json_get section inner;
  Ok (value_of_json v).

(** [data.get('weather', [{}])[0].get(inner)] *)
Definition weather_field (data : json) (inner : string) : result value :=
  weather ← json_get_default data "weather" (JArr [JObj []]);
  first ← json_index0 weather;
  v ← json_get first inner;
  Ok (value_of_json v).

(** Lines 131-149: the record, its members evaluated in order.  [now]
    is [datetime.datetime.now(datetime.timezone.utc).isoformat()], the
    reading of the clock the call makes. *)
Definition weather_record (now : string) (data : json)
    (location_coords : gmap string value) : result (list (string * value)) :=
  let latitude := cell location_coords "lat" in
  let longitude := cell location_coords "lon" in
  temperature_celsius ← nested_field data "main" "temp";
  feels_like_celsius ← nested_field data "main" "feels_like";
  pressure_hpa ← nested_field data "main" "pressure";
  humidity_percent ← nested_field data "main" "humidity";
  wind_speed_mps ← nested_field data "wind" "speed";
  wind_deg ← nested_field data "wind" "deg";
  weather_description ← weather_field data "description";
  weather_icon ← weather_field data "icon";
  cloudiness_percent ← nested_field data "clouds" "all";
  city_name ← (v ← json_get data "name"; Ok (value_of_json v));
  Ok [("latitude", latitude); ("longitude", longitude);
      ("timestamp_utc", VStr now);
      ("temperature_celsius", temperature_celsius);
      ("feels_like_celsius", feels_like_celsius);
      ("pressure_hpa", pressure_hpa);
      ("humidity_percent", humidity_percent);
      ("wind_speed_mps", wind_speed_mps);
      ("wind_deg", wind_deg);
      ("weather_description", weather_description);
      ("weather_icon", weather_icon);
      ("cloudiness_percent", cloudiness_percent);
      ("city_name", city_name)].

(** Lines 158-165 *)
Definition coerce_weather_frame (df : DataFrame) : DataFrame :=
  foldl (fun df col =>
           if bool_decide (col ∈ columns df)
           then map_column to_numeric_coerce col df else df)
        df weather_numeric_cols.

Definition parse_weather_body (now : string) (json_data : string)
    (location_coords : gmap string value) : result DataFrame :=
  data ← json_loads json_data;
  record ← weather_record now data location_coords;
  Ok (coerce_weather_frame (DataFrame_of_records [record])).

Definition parse_weather_response_to_dataframe (now : string)
    (json_data : string) (location_coords : gmap string value) : DataFrame :=
  if String.eqb json_data "" then empty_frame
  else
    match parse_weather_body now json_data location_coords with
    | Ok df => df
    | Raise _ => empty_frame
    end.

End Parsers.

(** ** load_duckdb.py and main.py: the store and the driver *)

(** What the code prints, by message. *)
Inductive message : Type :=
| StartingLoadPhase
| NoDataToLoad
| ConnectedTo (db_path : string)
| LoadingInto (table_name : string)
| LoadedRows (n : nat) (table_name : string)
| ErrorLoading (e : exn)
| ConnectionClosed
| LoadPhaseComplete
| StartingPipeline
| NoPointsDefined
| ExtractionProducedNoFiles
| ExtractionComplete (n : nat)
| TransformationNoData
| TransformationComplete
| EstimatedTravelTime (est : option float)
| PipelineFinished.

(** What the run does to the outside, in order. *)
Inductive event : Type :=
| Print (m : message)
| Connect (db_path : string)
| Execute (db_path table_name : string)
| Close (db_path : string).

(** The databases by file path, each a map from table name to table; the
    two oracles say whether [duckdb.connect] and the CREATE OR REPLACE
    statement succeed; [trace] has the newest event last. *)
Record World : Type := mkWorld {
  databases : gmap string (gmap string DataFrame);
  connect_ok : string -> bool;
  execute_ok : string -> string -> DataFrame -> bool;
  trace : list event
}.

Definition emit (ev : event) (w : World) : World :=
  mkWorld (databases w) (connect_ok w) (execute_ok w) (trace w ++ [ev]).

Definition tables_at (db_path : string) (w : World) : gmap string DataFrame :=
  default ∅ (databases w !! db_path).

(** [duckdb.connect(database=db_path, read_only=False)]: creates the
    database file when there is none. *)
Definition duckdb_connect (db_path : string) (w : World) : result string * World :=
  let w := emit (Connect db_path) w in
  if connect_ok w db_path then
    (Ok db_path,
     mkWorld (<[db_path := tables_at db_path w]> (databases w))
             (connect_ok w) (execute_ok w) (trace w))
  else (Raise IOError, w).

(** [con.execute("CREATE OR REPLACE TABLE t AS SELECT * FROM df")]: a
    statement that fails leaves the tables as they were. *)
Definition duckdb_create_or_replace (con : string) (table_name : string)
    (df : DataFrame) (w : World) : result unit * World :=
  let w := emit (Execute con table_name) w in
  if execute_ok w con table_name df then
    (Ok tt,
     mkWorld (<[con := <[table_name := df]> (tables_at con w)]> (databases w))
             (connect_ok w) (execute_ok w) (trace w))
  else (Raise DatabaseError, w).

(** Lines 22-30, the body of the [try]: the connection opened, if any,
    and how the body ended. *)
Definition load_try (df : DataFrame) (db_path table_name : string) (w : World)
    : option string * result unit * World :=
  match duckdb_connect db_path w with
  | (Raise e, w) => (None, Raise e, w)
  | (Ok con, w) =>
      let w := emit (Print (ConnectedTo db_path)) w in
      let w := emit (Print (LoadingInto table_name)) w in
      match duckdb_create_or_replace con table_name df w with
      | (Raise e, w) => (Some con, Raise e, w)
      | (Ok _, w) =>
          (Some con, Ok tt,
           emit (Print (LoadedRows (length (rows df)) table_name)) w)
      end
  end.

(** [load_transformed_data_to_duckdb]: the [except] clause prints and
    does not re-raise, the [finally] clause closes the connection, and the
    function returns [None] on every path. *)
Definition load_transformed_data_to_duckdb (df : DataFrame)
    (db_path table_name : string) (w : World) : result unit * World :=
  let w := emit (Print StartingLoadPhase) w in
  if df_empty df then (Ok tt, emit (Print NoDataToLoad) w)
  else
    let '(con, outcome, w) := load_try df db_path table_name w in
    let w :=
      match outcome with
      | Raise e => emit (Print (ErrorLoading e)) w
      | Ok _ => w
      end in
    let w :=
      match con with
      | Some c => emit (Print ConnectionClosed) (emit (Close c) w)
      | None => w
      end in
    (Ok tt, emit (Print LoadPhaseComplete) w).

Record Config : Type := mkConfig {
  TOMTOM_API_KEY : option string;
  ROUTE_POINTS_EXAMPLE : list string
}.

Section Main.

Variable read_parquet : string -> result DataFrame.

(** [extract_traffic_data_for_areas]: the paths of the files the
    extraction phase saved. *)
Variable extract_traffic_data_for_areas : list string -> list string.

(** The directory of main.py. *)
Variable script_dir : string.

Definition main (CONFIG : Config) (w : World) : result unit * World :=
  let w := emit (Print StartingPipeline) w in
  match TOMTOM_API_KEY CONFIG with
  | None | Some EmptyString => (Raise ValueError, w)
  | Some _ =>
      match ROUTE_POINTS_EXAMPLE CONFIG with
      | [] => (Ok tt, emit (Print NoPointsDefined) w)
      | points_to_process =>
          match extract_traffic_data_for_areas points_to_process with
          | [] => (Ok tt, emit (Print ExtractionProducedNoFiles) w)
          | extracted_file_paths =>
              let w :=
                emit (Print (ExtractionComplete (length extracted_file_paths))) w in
              match transform_traffic_data read_parquet extracted_file_paths with
              | Raise e => (Raise e, w)
              | Ok (transformed_data_df, _, estimated_time_sec) =>
                  if df_empty transformed_data_df then
                    (Ok tt,
                     emit (Print PipelineFinished)
                          (emit (Print TransformationNoData) w))
                  else
                    let w := emit (Print TransformationComplete) w in
                    let w := emit (Print (EstimatedTravelTime estimated_time_sec)) w in
                    let duckdb_database_path :=
                      script_dir +:+ "/traffic_data.duckdb" in
                    match load_transformed_data_to_duckdb
                            transformed_data_df duckdb_database_path
                            "traffic_data" w with
                    | (Raise e, w) => (Raise e, w)
                    | (Ok _, w) => (Ok tt, emit (Print PipelineFinished) w)
                    end
              end
          end
      end
  end.

End Main.

(** ** Notions of the specification *)

(** The travel-time estimate exists: the average is a number that is not
    below zero, the distance is positive and the speed in m/s is above
    zero. *)
Definition speed_mps (kmph : float) : float :=
  F64.div (F64.mul kmph (F64.of_Z 1000)) (F64.of_Z 3600).

Definition estimable (distance : option Z) (avg : option float) : bool :=
  match avg, distance with
  | Some kmph, Some d =>
      F64.leb F64.zero kmph && (0 <? d) && F64.ltb F64.zero (speed_mps kmph)
  | _, _ => false
  end.

Definition ends_with (s suffix : string) : bool :=
  let n := String.length s in
  let k := String.length suffix in
  (k <=? n)%nat && String.eqb (substring (n - k) k s) suffix.


(** The frames of the files that can be read, in the order of the paths. *)
Definition readable (read_parquet : string -> result DataFrame)
    (file_paths : list string) : list DataFrame :=
  omap (fun p => match read_parquet p with Ok df => Some df | Raise _ => None end)
       file_paths.

(** The result of the transformation as a function of the frames that
    could be read. *)
Definition transform_frames (all_dataframes : list DataFrame)
    : result (DataFrame * gmap string (option float) * option float) :=
  match all_dataframes with
  | [] => Ok (empty_frame, ∅, None)
  | _ =>
      averages ← compute_averages (pd_concat all_dataframes);
      est ← estimate_travel_time route_distance_meters
              (dict_get averages "average_currentSpeed_kmph");
      Ok (pd_concat all_dataframes, averages, est)
  end.

(** The key a metric's entry is stored under: with the unit when the
    column is in the table, the bare name when it is not. *)
Definition entry_key (df : DataFrame) (col : string) : string :=
  if bool_decide (col ∈ columns df) then avg_key col else "average_" +:+ col.

Definition keys_of (col : string) : list string :=
  [avg_key col; "average_" +:+ col].



(** The entry of one metric in the averages mapping. *)
Definition entry_at (df : DataFrame) (averages : gmap string (option float))
    (col : string) : Prop :=
  (col ∈ columns df ->
     exists m, Series_mean (column df col) = Ok m
               /\ averages !! avg_key col = Some (Some m))
  /\ (col ∉ columns df -> averages !! ("average_" +:+ col) = Some None).


(** The metric cells of a table are numbers or null. *)
Definition numeric_frame (df : DataFrame) : Prop :=
  Forall (fun r =>
            Forall (fun col => exists o, numeric_cell (cell r col) = Ok o)
                   numeric_cols_for_avg)
         (rows df).

(** *** The traffic record in closed form *)

Definition traffic_columns : list string :=
  scalar_tags ++ ["coordinate_count"; "coordinates"].

(** Lines 138-147: the coordinates of a document. *)
Definition root_coordinates (py_float : string -> result float) (root : Element)
    : result (list (float * float)) :=
  match find "coordinates" root with
  | Some coords_element =>
      read_coordinates py_float (findall "coordinate" coords_element) []
  | None => Ok []
  end.

(** The [coordinate] entries of a document. *)
Definition coordinate_entries (root : Element) : list Element :=
  match find "coordinates" root with
  | Some coords_element => findall "coordinate" coords_element
  | None => []
  end.

(** The row a document with coordinates [cs] is parsed to. *)
Definition traffic_row (coerce_object : value -> value) (root : Element)
    (cs : list (float * float)) : gmap string value :=
  let scalar name := text_or_none (find name root) in
  let numeric name := to_numeric_coerce coerce_object (scalar name) in
  list_to_map
    [("frc", scalar "frc");
     ("currentSpeed", numeric "currentSpeed");
     ("freeFlowSpeed", numeric "freeFlowSpeed");
     ("currentTravelTime", numeric "currentTravelTime");
     ("freeFlowTravelTime", numeric "freeFlowTravelTime");
     ("confidence", numeric "confidence");
     ("roadClosure", VBool (str_lower_is_true (scalar "roadClosure")));
     ("coordinate_count", VInt (Z.of_nat (length cs)));
     ("coordinates", VCoords cs)].

(** The text of a child, when it is there and not empty. *)
Definition degree_text (name : string) (entry : Element) : option string :=
  match find name entry with
  | Some el =>
      match text el with
      | Some s => if String.eqb s "" then None else Some s
      | None => None
      end
  | None => None
  end.

(** A coordinate entry supplies both a latitude and a longitude. *)
Definition carries_both (entry : Element) : bool :=
  match degree_text "latitude" entry, degree_text "longitude" entry with
  | Some _, Some _ => true
  | _, _ => false
  end.

(** Every degree text of the entry that is there spells a number. *)
Definition degrees_readable (py_float : string -> result float)
    (entry : Element) : Prop :=
  forall name s, name ∈ ["latitude"; "longitude"] ->
                 degree_text name entry = Some s ->
                 exists x, py_float s = Ok x.

(** The pair an entry is read to. *)
Definition reads_to (py_float : string -> result float) (entry : Element)
    (c : float * float) : Prop :=
  exists la lo, degree_text "latitude" entry = Some la
                /\ degree_text "longitude" entry = Some lo
                /\ py_float la = Ok c.1 /\ py_float lo = Ok c.2.

(** The document without its children of one tag. *)
Definition without_tag (name : string) (root : Element) : Element :=
  Elem (tag root) (text root)
       (List.filter (fun c => negb (String.eqb (tag c) name)) (children root)).

(** The response of the flow-segment endpoint has the root
    [flowSegmentData]. *)
Definition expected_top_level (root : Element) : bool :=
  String.eqb (tag root) "flowSegmentData".

(** *** The weather record in closed form *)

(** [data[outer][inner]] where both are there. *)
Definition json_path (data : json) (outer inner : string) : option json :=
  match data with
  | JObj members =>
      match members_lookup outer members with
      | Some (JObj section) => members_lookup inner section
      | _ => None
      end
  | _ => None
  end.

(** [data['weather'][0][inner]] where all are there. *)
Definition json_weather_path (data : json) (inner : string) : option json :=
  match data with
  | JObj members =>
      match members_lookup "weather" members with
      | Some (JArr (JObj first :: _)) => members_lookup inner first
      | _ => None
      end
  | _ => None
  end.

Definition json_top (data : json) (key : string) : option json :=
  match data with
  | JObj members => members_lookup key members
  | _ => None
  end.

Definition weather_columns : list string :=
  ["latitude"; "longitude"; "timestamp_utc"; "temperature_celsius";
   "feels_like_celsius"; "pressure_hpa"; "humidity_percent"; "wind_speed_mps";
   "wind_deg"; "weather_description"; "weather_icon"; "cloudiness_percent";
   "city_name"].

(** The row a response is parsed to. *)
Definition weather_row (coerce_object : value -> value) (now : string)
    (data : json) (location_coords : gmap string value) : gmap string value :=
  let numeric v := to_numeric_coerce coerce_object v in
  let nested outer inner := value_of_json (json_path data outer inner) in
  list_to_map
    [("latitude", numeric (cell location_coords "lat"));
     ("longitude", numeric (cell location_coords "lon"));
     ("timestamp_utc", VStr now);
     ("temperature_celsius", numeric (nested "main" "temp"));
     ("feels_like_celsius", numeric (nested "main" "feels_like"));
     ("pressure_hpa", numeric (nested "main" "pressure"));
     ("humidity_percent", numeric (nested "main" "humidity"));
     ("wind_speed_mps", numeric (nested "wind" "speed"));
     ("wind_deg", numeric (nested "wind" "deg"));
     ("weather_description",
      value_of_json (json_weather_path data "description"));
     ("weather_icon", value_of_json (json_weather_path data "icon"));
     ("cloudiness_percent", numeric (nested "clouds" "all"));
     ("city_name", value_of_json (json_top data "name"))].

(** A section of the response is an object, when it is there. *)
Definition section_ok (members : list (string * json)) (outer : string) : Prop :=
  members_lookup outer members = None
  \/ exists section, members_lookup outer members = Some (JObj section).

(** The [weather] member is a list that starts with an object, when it is
    there. *)
Definition weather_ok (members : list (string * json)) : Prop :=
  members_lookup "weather" members = None
  \/ exists first rest,
       members_lookup "weather" members = Some (JArr (JObj first :: rest)).

Definition well_shaped (members : list (string * json)) : Prop :=
  section_ok members "main" /\ section_ok members "wind"
  /\ section_ok members "clouds" /\ weather_ok members.



(** *** The store *)

(** The caller of a function learns of a failure when the call raises. *)
Definition reports_failure (r : result unit) : Prop := exists e, r = Raise e.

Definition is_attempt (ev : event) : bool :=
  match ev with
  | Connect _ | Execute _ _ => true
  | _ => false
  end.

(** A store that cannot be reached, and one that works. *)
Definition unreachable_store : World :=
  mkWorld ∅ (fun _ => false) (fun _ _ _ => true) [].

Definition working_store : World :=
  mkWorld ∅ (fun _ => true) (fun _ _ _ => true) [].

(** ** extract_traffic.py: file paths, URLs and the extraction loop *)

(** [s.replace(old, new)] for a one-character [old]. *)
Fixpoint str_replace (old : ascii) (new : string) (s : string) : string :=
  match s with
  | EmptyString => EmptyString
  | String c s' =>
      if Ascii.eqb c old then new +:+ str_replace old new s'
      else String c (str_replace old new s')
  end.

(** [os.path.join(a, b)] on POSIX. *)
Definition os_path_join (a b : string) : string :=
  match b with
  | String "/" _ => b
  | _ =>
      if String.eqb a "" then b
      else if ends_with a "/" then a +:+ b
      else a +:+ "/" +:+ b
  end.

(** The text of an [int] in an f-string. *)
Definition str_of_int (z : Z) : string := NilZero.string_of_int (Z.to_int z).

Definition TOMTOM_TRAFFIC_API_BASE_URL : string :=
  "https://api.tomtom.com/traffic/services/4/flowSegmentData/absolute".

(** [construct_file_path], with the folder of CONFIG and the formatted
    reading of the clock as arguments. *)
Definition construct_file_path (folder timestamp point_identifier : string)
    : string :=
  let safe_point_id :=
    str_replace "," "-" (str_replace "." "_" point_identifier) in
  let file_name :=
    "traffic_data_" +:+ safe_point_id +:+ "_" +:+ timestamp +:+ "."
    +:+ "parquet" in
  os_path_join folder file_name.

(** [construct_api_url], with the key of CONFIG as an argument and the
    keyword arguments in the order given. *)
Definition construct_api_url (key point_lat_lon_str : string) (zoom : Z)
    (format : string) (kwargs : list (string * string)) : string :=
  let url :=
    TOMTOM_TRAFFIC_API_BASE_URL +:+ "/" +:+ str_of_int zoom +:+ "/" +:+ format in
  let query_params :=
    foldl (fun q kv => q +:+ "&" +:+ kv.1 +:+ "=" +:+ kv.2)
          ("key=" +:+ key +:+ "&point=" +:+ point_lat_lon_str) kwargs in
  url +:+ "?" +:+ query_params.

(** The files written so far, and the number of readings made of the
    clock. *)
Record Disk : Type := mkDisk {
  files : gmap string DataFrame;
  clock_reads : nat
}.

Definition tick (d : Disk) : Disk := mkDisk (files d) (S (clock_reads d)).

(** [pd.read_parquet] on the files of a disk. *)
Definition read_from (d : Disk) (path : string) : result DataFrame :=
  match files d !! path with
  | Some df => Ok df
  | None => Raise IOError
  end.

Section Extraction.

Variable ET_fromstring : string -> result Element.
Variable py_float : string -> result float.
Variable coerce_object : value -> value.

(** The key and the folder of CONFIG. *)
Variable api_key : string.
Variable folder : string.

(** [fetch_data_from_api]: the text of the response, [None] when the
    request fails. *)
Variable fetch_data_from_api : string -> option string.

(** [datetime.datetime.now().strftime(...)] at the n-th reading of the
    clock. *)
Variable strftime_now : nat -> string.

(** Whether [df.to_parquet] succeeds. *)
Variable write_ok : string -> DataFrame -> bool.

(** [save_to_parquet]: a failure is printed and not raised. *)
Definition save_to_parquet (df : DataFrame) (file_path : string) (d : Disk)
    : Disk :=
  if write_ok file_path df
  then mkDisk (<[file_path := df]> (files d)) (clock_reads d)
  else d.

(** The data of a point: the table its response is parsed to, when the
    fetch gave a text and the table is not empty. *)
Definition point_data (point_identifier : string) : option DataFrame :=
  let api_url := construct_api_url api_key point_identifier 10 "xml" [] in
  match fetch_data_from_api api_url with
  | Some xml_data =>
      if String.eqb xml_data "" then None
      else
        let df :=
          parse_traffic_response_to_dataframe ET_fromstring py_float
            coerce_object xml_data in
        if df_empty df then None else Some df
  | None => None
  end.

(** Lines 201-223: one turn of the loop. *)
Definition extract_point (st : list string * Disk) (point_identifier : string)
    : list string * Disk :=
  let '(file_paths, d) := st in
  match point_data point_identifier with
  | Some df =>
      let file_path :=
        construct_file_path folder (strftime_now (clock_reads d))
          point_identifier in
      let d := save_to_parquet df file_path (tick d) in
      (file_paths ++ [file_path], d)
  | None => (file_paths, d)
  end.

Definition extract_traffic_data_for_areas (points_to_process : list string)
    (d : Disk) : list string * Disk :=
  foldl extract_point ([], d) points_to_process.

End Extraction.

(** ** extract_weather.py: [extract_weather_data] and its helpers *)

Section WeatherExtraction.

Variable coerce_object : value -> value.
Variable json_loads : string -> result json.

(** The environment variables read when the module is loaded. *)
Variable WEATHER_API_KEY : option string.
Variable WEATHER_API_BASE_URL : string.
Variable OUTPUT_FOLDER : string.

(** [requests.Request('GET', base_url, params=params).prepare().url] *)
Variable prepare_url : string -> list (string * value) -> string.

(** [fetch_data_from_api]: the text of the response, [None] when the
    request fails. *)
Variable fetch_data_from_api : string -> option string.

(** The n-th reading of the clock, as [strftime] and as the ISO text of
    the UTC instant. *)
Variable strftime_now : nat -> string.
Variable utc_isoformat : nat -> string.

Variable write_ok : string -> DataFrame -> bool.

Definition construct_weather_api_url (location_coords : gmap string value)
    (api_key base_url : string) : result string :=
  let lat := cell location_coords "lat" in
  let lon := cell location_coords "lon" in
  match lat, lon with
  | VNone, _ | _, VNone => Raise ValueError
  | _, _ =>
      Ok (prepare_url base_url
            [("lat", lat); ("lon", lon); ("appid", VStr api_key);
             ("units", VStr "metric")])
  end.

(** [location_coords.get(key, 'unknown').replace('.', '_')
      .replace('-', 'minus')]: only a string has the method. *)
Definition sanitized_coordinate (location_coords : gmap string value)
    (key : string) : result string :=
  match location_coords !! key with
  | None => Ok (str_replace "-" "minus" (str_replace "." "_" "unknown"))
  | Some (VStr s) => Ok (str_replace "-" "minus" (str_replace "." "_" s))
  | Some _ => Raise AttributeError
  end.

Definition construct_weather_file_path (location_coords : gmap string value)
    (output_folder extension timestamp : string) : result string :=
  lat ← sanitized_coordinate location_coords "lat";
  lon ← sanitized_coordinate location_coords "lon";
  let file_name :=
    "weather_data_lat" +:+ lat +:+ "_lon" +:+ lon +:+ "_" +:+ timestamp
    +:+ "." +:+ extension in
  Ok (os_path_join output_folder file_name).

(** [save_weather_to_parquet]: a failure is printed and raised again. *)
Definition save_weather_to_parquet (df : DataFrame) (file_path : string)
    (d : Disk) : result unit * Disk :=
  if write_ok file_path df
  then (Ok tt, mkDisk (<[file_path := df]> (files d)) (clock_reads d))
  else (Raise IOError, d).

(** [extract_weather_data]: the path of the file saved, [None] when there
    is nothing to save; the [except] clause raises again. *)
Definition extract_weather_data (location_coords : gmap string value)
    (d : Disk) : result (option string) * Disk :=
  match cell location_coords "lat", cell location_coords "lon" with
  | VNone, _ | _, VNone => (Ok None, d)
  | _, _ =>
      match WEATHER_API_KEY with
      | None | Some EmptyString => (Ok None, d)
      | Some key =>
          match construct_weather_api_url location_coords key
                  WEATHER_API_BASE_URL with
          | Raise e => (Raise e, d)
          | Ok api_url =>
              match fetch_data_from_api api_url with
              | None | Some EmptyString => (Ok None, d)
              | Some json_data =>
                  let df :=
                    parse_weather_response_to_dataframe coerce_object
                      json_loads (utc_isoformat (clock_reads d)) json_data
                      location_coords in
                  (* the parser reads the clock once the text is loaded *)
                  let d :=
                    match json_loads json_data with
                    | Ok _ => tick d
                    | Raise _ => d
                    end in
                  if df_empty df then (Ok None, d)
                  else
                    let timestamp := strftime_now (clock_reads d) in
                    let d := tick d in
                    match construct_weather_file_path location_coords
                            OUTPUT_FOLDER "parquet" timestamp with
                    | Raise e => (Raise e, d)
                    | Ok file_path =>
                        match save_weather_to_parquet df file_path d with
                        | (Raise e, d) => (Raise e, d)
                        | (Ok _, d) => (Ok (Some file_path), d)
                        end
                    end
              end
          end
      end
  end.

End WeatherExtraction.

(** The events that open or close a connection. *)
Definition is_connection_event (ev : event) : bool :=
  match ev with
  | Connect _ | Close _ => true
  | _ => false
  end.

(** ** Sample data *)

Module Samples.

Definition row_speed (kmph : float) : gmap string value :=
  {[ "currentSpeed" := VFloat kmph ]}.

Definition one_row (kmph : float) : DataFrame :=
  mkDataFrame ["currentSpeed"] [row_speed kmph].

(** Three one-row batch files, the second of which cannot be read. *)
Definition three_files (p : string) : result DataFrame :=
  if String.eqb p "p1.parquet" then Ok (one_row (F64.of_Z 30))
  else if String.eqb p "p3.parquet" then Ok (one_row (F64.of_Z 42))
  else Raise IOError.

(** One batch file whose only row drives at 36 km/h. *)
Definition one_file (p : string) : result DataFrame :=
  if String.eqb p "p1.parquet" then Ok (one_row (F64.of_Z 36))
  else Raise IOError.

(** A batch whose table has no [currentSpeed] column, and a confidence
    that is null in one row of three. *)
Definition no_speed : DataFrame :=
  mkDataFrame ["frc"; "confidence"]
    [ {[ "frc" := VStr "FRC2"; "confidence" := VFloat (F64.of_Z 10) ]};
      {[ "frc" := VStr "FRC3"; "confidence" := VFloat F64.nan ]};
      {[ "frc" := VStr "FRC3"; "confidence" := VFloat (F64.of_Z 20) ]} ].

Definition no_speed_file (p : string) : result DataFrame :=
  if String.eqb p "p1.parquet" then Ok no_speed else Raise IOError.

(** *** Sample documents, and the library calls on them *)

Definition leaf (name text : string) : Element := Elem name (Some text) [].

Definition coordinate (fields : list Element) : Element :=
  Elem "coordinate" None fields.

Definition segment_xml : string :=
  "<flowSegmentData><frc>FRC2</frc><currentSpeed>41</currentSpeed>"
  +:+ "<confidence>0.59</confidence><roadClosure>True</roadClosure>"
  +:+ "<coordinates>"
  +:+ "<coordinate><latitude>10.79187</latitude><longitude>106.68831</longitude></coordinate>"
  +:+ "<coordinate><latitude>10.78792</latitude></coordinate>"
  +:+ "<coordinate><latitude>10.79096</latitude><longitude>106.7156</longitude></coordinate>"
  +:+ "</coordinates></flowSegmentData>".

Definition segment_coordinates : Element :=
  Elem "coordinates" None
    [coordinate [leaf "latitude" "10.79187"; leaf "longitude" "106.68831"];
     coordinate [leaf "latitude" "10.78792"];
     coordinate [leaf "latitude" "10.79096"; leaf "longitude" "106.7156"]].

Definition segment_root : Element :=
  Elem "flowSegmentData" None
    [leaf "frc" "FRC2"; leaf "currentSpeed" "41"; leaf "confidence" "0.59";
     leaf "roadClosure" "True"; segment_coordinates].

(** The same segment without its [roadClosure] tag. *)
Definition open_road_xml : string :=
  "<flowSegmentData><frc>FRC2</frc><currentSpeed>41</currentSpeed>"
  +:+ "<confidence>0.59</confidence>"
  +:+ "<coordinates>"
  +:+ "<coordinate><latitude>10.79187</latitude><longitude>106.68831</longitude></coordinate>"
  +:+ "<coordinate><latitude>10.78792</latitude></coordinate>"
  +:+ "<coordinate><latitude>10.79096</latitude><longitude>106.7156</longitude></coordinate>"
  +:+ "</coordinates></flowSegmentData>".

Definition open_road_root : Element :=
  Elem "flowSegmentData" None
    [leaf "frc" "FRC2"; leaf "currentSpeed" "41"; leaf "confidence" "0.59";
     segment_coordinates].

(** A well-formed document that is no flow segment. *)
Definition notice_xml : string :=
  "<html><body>Service Unavailable</body></html>".

Definition notice_root : Element :=
  Elem "html" None [leaf "body" "Service Unavailable"].

(** A segment one of whose latitudes is not a number. *)
Definition bad_degree_xml : string :=
  "<flowSegmentData><frc>FRC2</frc><currentSpeed>41</currentSpeed>"
  +:+ "<coordinates>"
  +:+ "<coordinate><latitude>abc</latitude><longitude>106.68831</longitude></coordinate>"
  +:+ "</coordinates></flowSegmentData>".

Definition bad_degree_root : Element :=
  Elem "flowSegmentData" None
    [leaf "frc" "FRC2"; leaf "currentSpeed" "41";
     Elem "coordinates" None
       [coordinate [leaf "latitude" "abc"; leaf "longitude" "106.68831"]]].

(** A document that is not well-formed. *)
Definition malformed_xml : string := "<flowSegmentData><frc>FRC2</flowSegmentData>".

(** [ET.fromstring] on the sample documents. *)
Definition fromstring (xml_data : string) : result Element :=
  if String.eqb xml_data segment_xml then Ok segment_root
  else if String.eqb xml_data open_road_xml then Ok open_road_root
  else if String.eqb xml_data notice_xml then Ok notice_root
  else if String.eqb xml_data bad_degree_xml then Ok bad_degree_root
  else Raise ParseError.

(** [float] on the texts of the sample documents. *)
Definition float_of_text (s : string) : result float :=
  if String.eqb s "10.79187" then Ok (F64.dec 1079187 5)
  else if String.eqb s "106.68831" then Ok (F64.dec 10668831 5)
  else if String.eqb s "10.78792" then Ok (F64.dec 1078792 5)
  else if String.eqb s "10.79096" then Ok (F64.dec 1079096 5)
  else if String.eqb s "106.7156" then Ok (F64.dec 1067156 4)
  else Raise ValueError.

(** [pd.to_numeric(errors='coerce')] on the cells of the samples. *)
Definition coerce (v : value) : value :=
  match v with
  | VStr s =>
      if String.eqb s "41" then VInt 41
      else if String.eqb s "0.59" then VFloat (F64.dec 59 2)
      else if String.eqb s "10.79187" then VFloat (F64.dec 1079187 5)
      else if String.eqb s "-106.68831" then VFloat (F64.dec (-10668831) 5)
      else VFloat F64.nan
  | _ => VFloat F64.nan
  end.

Definition quoted (s : string) : string :=
  String (ascii_of_nat 34) s +:+ String (ascii_of_nat 34) EmptyString.

(** A weather response with a [main] section that has no [temp]. *)
Definition weather_json : string :=
  "{" +:+ quoted "main" +:+ ": {" +:+ quoted "humidity" +:+ ": 70}, "
  +:+ quoted "name" +:+ ": " +:+ quoted "Saigon" +:+ "}".

Definition weather_data : json :=
  JObj [("main", JObj [("humidity", JInt 70)]); ("name", JStr "Saigon")].

(** A response whose [weather] list is empty. *)
Definition no_weather_json : string :=
  "{" +:+ quoted "weather" +:+ ": []}".

(** [json.loads] on the sample responses. *)
Definition loads (json_data : string) : result json :=
  if String.eqb json_data weather_json then Ok weather_data
  else if String.eqb json_data "{}" then Ok (JObj [])
  else if String.eqb json_data "[]" then Ok (JArr [])
  else if String.eqb json_data no_weather_json
  then Ok (JObj [("weather", JArr [])])
  else Raise JSONDecodeError.

Definition location : gmap string value :=
  {[ "lat" := VFloat (F64.dec 1079187 5);
     "lon" := VFloat (F64.dec 10668831 5) ]}.

Definition midnight : string := "2024-01-01T00:00:00+00:00".

Definition config : Config :=
  mkConfig (Some "key") ["10.79187,106.68831"].

(** The traffic API answers for one point only. *)
Definition point : string := "10.79187,106.68831".

Definition fetch (url : string) : option string :=
  if String.eqb url (construct_api_url "key" point 10 "xml" [])
  then Some segment_xml else None.

Definition clock (n : nat) : string := "20240101_000000".

Definition empty_disk : Disk := mkDisk ∅ 0.

(** One weather endpoint that answers every request with the sample. *)
Definition prepare (base_url : string) (params : list (string * value))
    : string := base_url.

Definition weather_fetch (url : string) : option string := Some weather_json.

(** The same place with its coordinates given as strings. *)
Definition text_location : gmap string value :=
  {[ "lat" := VStr "10.79187"; "lon" := VStr "-106.68831" ]}.

End Samples.

(** * Properties *)

(** ** The monad of exceptions *)

Lemma bind_Ok {A B} (m : result A) (k : A -> result B) (b : B) :
  m ≫= k = Ok b -> exists a, m = Ok a /\ k a = Ok b.
Proof. destruct m as [a|e]; simpl; [eauto | discriminate]. Qed.

Ltac bind_inv H :=
  let a := fresh "a" in
  let Ha := fresh "Ha" in
  apply bind_Ok in H; destruct H as (a & Ha & H).

(** ** The batch transformer *)

Section TransformFacts.

Variable read_parquet : string -> result DataFrame.

Lemma read_all_acc (file_paths : list string) (acc : list DataFrame) :
  foldl (fun all_dataframes f_path =>
           match read_parquet f_path with
           | Ok df => all_dataframes ++ [df]
           | Raise _ => all_dataframes
           end) acc file_paths
  = acc ++ readable read_parquet file_paths.
Proof.
  revert acc. induction file_paths as [|p ps IH]; intros acc; simpl.
  - by rewrite app_nil_r.
  - rewrite IH. unfold readable. simpl.
    destruct (read_parquet p); simpl; [by rewrite <- app_assoc | done].
Qed.

Lemma read_all_readable (file_paths : list string) :
  read_all read_parquet file_paths = readable read_parquet file_paths.
Proof. unfold read_all. by rewrite read_all_acc. Qed.

Lemma readable_skip (pre post : list string) (p : string) (e : exn) :
  read_parquet p = Raise e ->
  readable read_parquet (pre ++ p :: post) = readable read_parquet (pre ++ post).
Proof.
  intros Hp. unfold readable. rewrite !omap_app. simpl. by rewrite Hp.
Qed.

Lemma transform_by_frames (file_paths : list string) :
  transform_traffic_data read_parquet file_paths
  = transform_frames (readable read_parquet file_paths).
Proof.
  unfold transform_traffic_data. rewrite read_all_readable.
  destruct file_paths as [|p ps]; [done|].
  by destruct (readable read_parquet (p :: ps)).
Qed.

Lemma transform_frames_rows dfs df avgs est :
  transform_frames dfs = Ok (df, avgs, est) ->
  rows df = mjoin (rows <$> dfs).
Proof.
  destruct dfs as [|d ds]; simpl.
  - intros [= <- _ _]. done.
  - intros H. bind_inv H. bind_inv H. by injection H as <- _ _.
Qed.

End TransformFacts.

(** ** The averages *)




Lemma numeric_cells_total (s : list value) :
  Forall (fun v => exists o, numeric_cell v = Ok o) s ->
  exists xs, numeric_cells s = Ok xs.
Proof.
  induction 1 as [|v s [o Ho] _ [xs IH]]; simpl.
  - by eexists.
  - rewrite Ho, IH. simpl. by eexists.
Qed.

Lemma keys_separate_all :
  Forall (fun c1 =>
            Forall (fun c2 =>
                      c1 = c2 \/ Forall (fun k => k ∉ keys_of c2) (keys_of c1))
                   numeric_cols_for_avg)
         numeric_cols_for_avg.
Proof. apply (bool_decide_unpack _). vm_compute. exact I. Qed.

Lemma keys_separate (c1 c2 k : string) :
  c1 ∈ numeric_cols_for_avg -> c2 ∈ numeric_cols_for_avg -> c1 ≠ c2 ->
  k ∈ keys_of c1 -> k ∈ keys_of c2 -> False.
Proof.
  intros H1 H2 Hne Hk1 Hk2.
  pose proof keys_separate_all as HA.
  rewrite Forall_forall in HA. specialize (HA _ H1).
  rewrite Forall_forall in HA. destruct (HA _ H2) as [->|HF]; [done|].
  rewrite Forall_forall in HF. by apply (HF _ Hk1).
Qed.

Lemma entry_key_keys (df : DataFrame) (c : string) : entry_key df c ∈ keys_of c.
Proof. unfold entry_key, keys_of. case_bool_decide; set_solver. Qed.

Lemma averages_step_frame df a c a1 (k : string) :
  averages_step df a c = Ok a1 -> k ≠ entry_key df c -> a1 !! k = a !! k.
Proof.
  unfold averages_step, entry_key. intros H Hk. case_bool_decide.
  - bind_inv H. injection H as <-. by rewrite lookup_insert_ne.
  - destruct (a !! ("average_" +:+ c)); injection H as <-; [done|].
    by rewrite lookup_insert_ne.
Qed.

Lemma averages_step_entry df a c a1 :
  averages_step df a c = Ok a1 -> a !! ("average_" +:+ c) = None ->
  entry_at df a1 c /\ dom a1 = {[entry_key df c]} ∪ dom a.
Proof.
  unfold averages_step, entry_key, entry_at. intros H Hf. case_bool_decide.
  - bind_inv H. injection H as <-. split; [split|].
    + intros _. eexists. split; [done|]. by rewrite lookup_insert_eq.
    + done.
    + by rewrite dom_insert_L.
  - rewrite Hf in H. injection H as <-. split; [split|].
    + done.
    + intros _. by rewrite lookup_insert_eq.
    + by rewrite dom_insert_L.
Qed.

Lemma averages_fold_frame df cols : forall a a' (k : string),
  foldlM (averages_step df) a cols = Ok a' ->
  (forall c, c ∈ cols -> k ≠ entry_key df c) -> a' !! k = a !! k.
Proof.
  induction cols as [|c cols IH]; intros a a' k H Hk; simpl in H.
  - by injection H as <-.
  - bind_inv H.
    rewrite (IH _ _ _ H); [|intros; apply Hk; set_solver].
    eapply averages_step_frame; [done|]. apply Hk. set_solver.
Qed.

Lemma averages_fold df cols : forall a a',
  NoDup cols -> (forall c, c ∈ cols -> c ∈ numeric_cols_for_avg) ->
  (forall c k, c ∈ cols -> k ∈ keys_of c -> a !! k = None) ->
  foldlM (averages_step df) a cols = Ok a' ->
  (forall c, c ∈ cols -> entry_at df a' c)
  /\ dom a' = list_to_set (entry_key df <$> cols) ∪ dom a.
Proof.
  induction cols as [|c0 cols IH]; intros a a' Hnd Hsub Hfresh H; simpl in H.
  - injection H as <-. split; [set_solver|]. simpl. set_solver.
  - bind_inv H. rename a0 into a1, Ha into H1.
    apply NoDup_cons in Hnd as [Hc0 Hnd].
    assert (Hsep : forall c k, c ∈ cols -> k ∈ keys_of c -> k ≠ entry_key df c0).
    { intros c k Hc Hk ->. eapply (keys_separate c c0).
      - apply Hsub; set_solver.
      - apply Hsub; set_solver.
      - intros ->. done.
      - done.
      - apply entry_key_keys. }
    destruct (averages_step_entry _ _ _ _ H1) as [He Hd].
    { apply (Hfresh c0); [set_solver|]. unfold keys_of. set_solver. }
    destruct (IH a1 a' Hnd) as [IHe IHd]; [set_solver| |done|].
    { intros c k Hc Hk.
      rewrite (averages_step_frame _ _ _ _ _ H1); [|by eapply Hsep].
      apply (Hfresh c); [set_solver|done]. }
    split.
    + intros c [->|Hc]%elem_of_cons; [|by apply IHe].
      destruct He as [Hp Ha]. split.
      * intros Hin. destruct (Hp Hin) as (m & Hm & Hl). exists m. split; [done|].
        rewrite (averages_fold_frame _ _ _ _ _ H); [done|].
        intros c Hc Heq.
        eapply (Hsep c (entry_key df c)); [done|apply entry_key_keys|].
        rewrite <- Heq. unfold entry_key. by rewrite bool_decide_eq_true_2.
      * intros Hin. rewrite (averages_fold_frame _ _ _ _ _ H); [by apply Ha|].
        intros c Hc Heq.
        eapply (Hsep c (entry_key df c)); [done|apply entry_key_keys|].
        rewrite <- Heq. unfold entry_key. by rewrite bool_decide_eq_false_2.
    + rewrite IHd, Hd. simpl. set_solver.
Qed.

Lemma compute_averages_entries df avgs :
  compute_averages df = Ok avgs ->
  (forall c, c ∈ numeric_cols_for_avg -> entry_at df avgs c)
  /\ dom avgs = list_to_set (entry_key df <$> numeric_cols_for_avg).
Proof.
  intros H. destruct (averages_fold df numeric_cols_for_avg ∅ avgs) as [He Hd].
  - apply (bool_decide_unpack _). vm_compute. exact I.
  - done.
  - intros. apply lookup_empty.
  - done.
  - split; [done|]. rewrite Hd. set_solver.
Qed.

Lemma averages_fold_total df cols : forall a,
  (forall c, c ∈ cols -> c ∈ columns df ->
             exists m, Series_mean (column df c) = Ok m) ->
  exists a', foldlM (averages_step df) a cols = Ok a'.
Proof.
  induction cols as [|c cols IH]; intros a Hm; simpl.
  - by eexists.
  - assert (exists a1, averages_step df a c = Ok a1) as [a1 ->].
    { unfold averages_step. case_bool_decide.
      - destruct (Hm c) as [m ->]; [set_solver|done|]. simpl. by eexists.
      - destruct (a !! ("average_" +:+ c)); by eexists. }
    simpl. apply IH. intros. apply Hm; set_solver.
Qed.

(** ** The travel-time estimate *)

Lemma float_of_int_5000 : float_of_int 5000 = Ok (F64.of_Z 5000).
Proof. vm_compute. reflexivity. Qed.

Lemma estimate_when_estimable (d : Z) (fd kmph : float) :
  estimable (Some d) (Some kmph) = true ->
  float_of_int d = Ok fd ->
  estimate_travel_time (Some d) (Some kmph)
  = Ok (Some (F64.div fd (speed_mps kmph))).
Proof.
  unfold estimable, estimate_travel_time. fold (speed_mps kmph).
  intros [[H1 H2]%andb_prop H3]%andb_prop Hfd.
  by rewrite H1, H2, H3, Hfd.
Qed.

Lemma estimate_when_not_estimable (distance : option Z) (avg : option float) :
  estimable distance avg = false ->
  estimate_travel_time distance avg = Ok None.
Proof.
  unfold estimable, estimate_travel_time.
  destruct avg as [kmph|]; [|done]. destruct distance as [d|]; [|done].
  fold (speed_mps kmph).
  destruct (F64.leb F64.zero kmph && (0 <? d)); [|done]. simpl.
  by intros ->.
Qed.

Lemma estimate_5000_total (avg : option float) :
  exists est, estimate_travel_time route_distance_meters avg = Ok est.
Proof.
  destruct (estimable route_distance_meters avg) eqn:E.
  - destruct avg as [kmph|]; [|done]. eexists.
    by apply estimate_when_estimable, float_of_int_5000.
  - eexists. by apply estimate_when_not_estimable.
Qed.

Lemma transform_frames_estimate dfs df avgs est :
  transform_frames dfs = Ok (df, avgs, est) ->
  estimate_travel_time route_distance_meters
    (dict_get avgs "average_currentSpeed_kmph") = Ok est.
Proof.
  destruct dfs as [|d ds]; simpl.
  - intros [= _ <- <-]. done.
  - intros H. bind_inv H. bind_inv H. by injection H as _ <- <-.
Qed.

(** C1.  The estimate [transform_traffic_data] returns is the route
    distance divided by the average current speed in m/s (km/h times 1000
    over 3600) when that average is a number not below zero, the distance
    is positive and the speed in m/s is above zero, and is null otherwise;
    an average of 36.0 over 5000 meters gives exactly 500.0 seconds, and
    an average of 0.0 or null gives null at every distance. *)
Theorem C1_estimated_travel_time :
  (forall (read_parquet : string -> result DataFrame) (file_paths : list string)
          df avgs est,
      transform_traffic_data read_parquet file_paths = Ok (df, avgs, est) ->
      match dict_get avgs "average_currentSpeed_kmph" with
      | Some kmph =>
          if estimable route_distance_meters (Some kmph)
          then est = Some (F64.div (F64.of_Z 5000) (speed_mps kmph))
          else est = None
      | None => est = None
      end)
  /\ (forall (d : Z) (fd kmph : float),
        estimable (Some d) (Some kmph) = true ->
        float_of_int d = Ok fd ->
        estimate_travel_time (Some d) (Some kmph)
        = Ok (Some (F64.div fd (speed_mps kmph))))
  /\ (forall distance avg,
        estimable distance avg = false ->
        estimate_travel_time distance avg = Ok None)
  /\ estimate_travel_time (Some 5000) (Some (F64.of_Z 36))
     = Ok (Some (F64.of_Z 500))
  /\ (forall distance,
        estimate_travel_time distance (Some F64.zero) = Ok None
        /\ estimate_travel_time distance None = Ok None).
Proof.
  split; [|split; [|split; [|split]]].
  - intros read_parquet file_paths df avgs est H.
    rewrite transform_by_frames in H. apply transform_frames_estimate in H.
    unfold route_distance_meters in *.
    destruct (dict_get avgs "average_currentSpeed_kmph") as [kmph|].
    + destruct (estimable (Some 5000) (Some kmph)) eqn:E.
      * rewrite (estimate_when_estimable 5000 _ kmph E float_of_int_5000) in H.
        by injection H as <-.
      * rewrite (estimate_when_not_estimable _ _ E) in H. by injection H as <-.
    + by injection H as <-.
  - apply estimate_when_estimable.
  - apply estimate_when_not_estimable.
  - vm_compute. reflexivity.
  - intros distance. split; apply estimate_when_not_estimable.
    + destruct distance as [d|]; [|done]. unfold estimable.
      replace (F64.ltb F64.zero (speed_mps F64.zero)) with false
        by (vm_compute; reflexivity).
      apply andb_false_r.
    + done.
Qed.

Lemma sample_one_file_result :
  match transform_traffic_data Samples.one_file ["p1.parquet"] with
  | Ok (_, avgs, est) =>
      dict_get avgs "average_currentSpeed_kmph" = Some (F64.of_Z 36)
      /\ est = Some (F64.of_Z 500)
  | Raise _ => False
  end.
Proof. vm_compute. split; reflexivity. Qed.

Lemma C1_estimated_travel_time_witness :
  exists df avgs est,
    transform_traffic_data Samples.one_file ["p1.parquet"] = Ok (df, avgs, est)
    /\ match dict_get avgs "average_currentSpeed_kmph" with
       | Some kmph =>
           if estimable route_distance_meters (Some kmph)
           then est = Some (F64.div (F64.of_Z 5000) (speed_mps kmph))
           else est = None
       | None => est = None
       end
    /\ estimate_travel_time (Some 7) (Some (F64.of_Z 36))
       = Ok (Some (F64.div (F64.of_Z 7) (speed_mps (F64.of_Z 36))))
    /\ estimate_travel_time (Some (-7)) (Some (F64.of_Z 36)) = Ok None.
Proof.
  destruct C1_estimated_travel_time as (Ht & Hy & Hn & _ & _).
  pose proof sample_one_file_result as Hs.
  destruct (transform_traffic_data Samples.one_file ["p1.parquet"])
    as [[[df avgs] est]|e] eqn:H; [|destruct Hs].
  exists df, avgs, est. split; [reflexivity|].
  split; [exact (Ht _ _ _ _ _ H)|]. split.
  - apply Hy; vm_compute; reflexivity.
  - apply Hn. vm_compute. reflexivity.
Defined.

(** ** Reading the batch files *)

Lemma numeric_frame_concat (dfs : list DataFrame) :
  Forall numeric_frame dfs -> numeric_frame (pd_concat dfs).
Proof.
  unfold numeric_frame, pd_concat. simpl.
  induction 1 as [|d ds Hd _ IH]; simpl; [constructor|].
  apply Forall_app. by split.
Qed.

Lemma numeric_frame_mean (df : DataFrame) (col : string) :
  numeric_frame df -> col ∈ numeric_cols_for_avg ->
  exists m, Series_mean (column df col) = Ok m.
Proof.
  intros Hf Hc. unfold Series_mean.
  destruct (numeric_cells_total (column df col)) as [xs ->].
  - unfold column. apply Forall_fmap. eapply Forall_impl; [exact Hf|].
    intros r Hr. simpl. rewrite Forall_forall in Hr. by apply Hr.
  - simpl. by eexists.
Qed.

Lemma transform_frames_total (dfs : list DataFrame) :
  Forall numeric_frame dfs -> exists out, transform_frames dfs = Ok out.
Proof.
  intros Hn. destruct dfs as [|d ds]; [by eexists|].
  unfold transform_frames.
  destruct (averages_fold_total (pd_concat (d :: ds)) numeric_cols_for_avg ∅)
    as [avgs Ha].
  { intros c Hc _. by apply numeric_frame_mean; [apply numeric_frame_concat|]. }
  unfold compute_averages. rewrite Ha. simpl.
  destruct (estimate_5000_total (dict_get avgs "average_currentSpeed_kmph"))
    as [est ->].
  simpl. by eexists.
Qed.

(** C4.  A batch file whose read fails is skipped and the run goes on:
    the result is the one the remaining paths give.  The combined table
    holds exactly the rows of the readable files, in the order of the
    files and, within a file, of its rows, so its row count is the sum of
    the rows read; the run returns whenever the metric cells read are
    numbers or null; and when no file is readable the result is an empty
    table, an empty averages mapping and a null estimate. *)
Theorem C4_unreadable_files_skipped
    (read_parquet : string -> result DataFrame) (file_paths : list string) :
  (forall pre p post e,
      file_paths = pre ++ p :: post -> read_parquet p = Raise e ->
      transform_traffic_data read_parquet file_paths
      = transform_traffic_data read_parquet (pre ++ post))
  /\ (forall df avgs est,
        transform_traffic_data read_parquet file_paths = Ok (df, avgs, est) ->
        rows df = mjoin (rows <$> readable read_parquet file_paths)
        /\ length (rows df)
           = sum_list ((fun d => length (rows d))
                         <$> readable read_parquet file_paths))
  /\ (Forall numeric_frame (readable read_parquet file_paths) ->
      exists out, transform_traffic_data read_parquet file_paths = Ok out)
  /\ (readable read_parquet file_paths = [] ->
      transform_traffic_data read_parquet file_paths
      = Ok (empty_frame, ∅, None)).
Proof.
  split; [|split; [|split]].
  - intros pre p post e -> Hp.
    by rewrite !transform_by_frames, (readable_skip _ _ _ _ _ Hp).
  - intros df avgs est H. rewrite transform_by_frames in H.
    apply transform_frames_rows in H. split; [done|].
    rewrite H, length_join, <- list_fmap_compose. done.
  - intros Hn. rewrite transform_by_frames. by apply transform_frames_total.
  - intros Hr. by rewrite transform_by_frames, Hr.
Qed.

Lemma C4_unreadable_files_skipped_witness :
  exists df avgs est,
    transform_traffic_data Samples.three_files
      ["p1.parquet"; "p2.parquet"; "p3.parquet"] = Ok (df, avgs, est)
    /\ transform_traffic_data Samples.three_files
         ["p1.parquet"; "p2.parquet"; "p3.parquet"]
       = transform_traffic_data Samples.three_files ["p1.parquet"; "p3.parquet"]
    /\ rows df = [Samples.row_speed (F64.of_Z 30); Samples.row_speed (F64.of_Z 42)]
    /\ length (rows df) = 2%nat
    /\ transform_traffic_data Samples.three_files ["p2.parquet"]
       = Ok (empty_frame, ∅, None).
Proof.
  pose proof (C4_unreadable_files_skipped Samples.three_files
                ["p1.parquet"; "p2.parquet"; "p3.parquet"]) as (Hs & Hr & Ht & _).
  destruct Ht as [[[df avgs] est] Hout].
  { repeat constructor; by eexists. }
  exists df, avgs, est. split; [exact Hout|].
  split; [exact (Hs ["p1.parquet"] "p2.parquet" ["p3.parquet"] IOError
                    eq_refl eq_refl)|].
  destruct (Hr df avgs est Hout) as [Hrows Hlen].
  split; [exact Hrows|]. split; [exact Hlen|].
  pose proof (C4_unreadable_files_skipped Samples.three_files ["p2.parquet"])
    as (_ & _ & _ & He).
  exact (He eq_refl).
Defined.

(** ** The averages mapping of a combined table *)

Lemma transform_frames_averages dfs df avgs est :
  dfs <> [] ->
  transform_frames dfs = Ok (df, avgs, est) ->
  df = pd_concat dfs /\ compute_averages df = Ok avgs.
Proof.
  destruct dfs as [|d ds]; [done|]. intros _ H. simpl in H.
  bind_inv H. bind_inv H. by injection H as <- <- _.
Qed.


Lemma sample_no_speed_result :
  match transform_traffic_data Samples.no_speed_file ["p1.parquet"] with
  | Ok (_, avgs, _) =>
      avgs !! "average_confidence_unitless" = Some (Some (F64.of_Z 15))
      /\ avgs !! "average_currentSpeed" = Some None
  | Raise _ => False
  end.
Proof. vm_compute. split; reflexivity. Qed.



(** ** The traffic parser *)

Lemma find_without_tag_ne (name removed : string) (root : Element) :
  name <> removed -> find name (without_tag removed root) = find name root.
Proof.
  intros Hne. destruct root as [t s cs]. unfold find, without_tag. simpl.
  induction cs as [|c cs IH]; simpl; [done|].
  destruct (String.eqb_spec (tag c) removed) as [E|E]; simpl.
  - destruct (String.eqb_spec (tag c) name) as [E'|E']; [congruence|done].
  - by destruct (String.eqb (tag c) name).
Qed.

Lemma find_without_tag_eq (removed : string) (root : Element) :
  find removed (without_tag removed root) = None.
Proof.
  destruct root as [t s cs]. unfold find, without_tag. simpl.
  induction cs as [|c cs IH]; simpl; [done|].
  destruct (String.eqb (tag c) removed) eqn:E; simpl; [done|]. by rewrite E.
Qed.

Section ParserFacts.

Variable ET_fromstring : string -> result Element.
Variable py_float : string -> result float.
Variable coerce_object : value -> value.

Lemma segment_frame (root : Element) (cs : list (float * float)) :
  root_coordinates py_float root = Ok cs ->
  (segment_data ← segment_record py_float root;
   Ok (coerce_traffic_frame coerce_object (DataFrame_of_records [segment_data])))
  = Ok (mkDataFrame traffic_columns [traffic_row coerce_object root cs]).
Proof.
  intros Hc. unfold segment_record. fold (root_coordinates py_float root).
  rewrite Hc. unfold traffic_row, scalar_tags. cbn [foldl mbind result_bind].
  generalize (text_or_none (find "frc" root)) as v1.
  generalize (text_or_none (find "currentSpeed" root)) as v2.
  generalize (text_or_none (find "freeFlowSpeed" root)) as v3.
  generalize (text_or_none (find "currentTravelTime" root)) as v4.
  generalize (text_or_none (find "freeFlowTravelTime" root)) as v5.
  generalize (text_or_none (find "confidence" root)) as v6.
  generalize (text_or_none (find "roadClosure" root)) as v7.
  intros. generalize (VInt (Z.of_nat (length cs))) as n. intros n.
  unfold coerce_traffic_frame.
  generalize (to_numeric_coerce coerce_object) as numeric. intros numeric.
  vm_compute. reflexivity.
Qed.

Lemma segment_raise (root : Element) (e : exn) :
  root_coordinates py_float root = Raise e ->
  segment_record py_float root = Raise e.
Proof.
  intros Hc. unfold segment_record. fold (root_coordinates py_float root).
  by rewrite Hc.
Qed.

(** The parser by cases on the payload. *)
Lemma parse_traffic_cases (xml_data : string) :
  parse_traffic_response_to_dataframe ET_fromstring py_float coerce_object
    xml_data
  = if String.eqb xml_data "" then empty_frame
    else
      match ET_fromstring xml_data with
      | Raise _ => empty_frame
      | Ok root =>
          match root_coordinates py_float root with
          | Raise _ => empty_frame
          | Ok cs =>
              mkDataFrame traffic_columns [traffic_row coerce_object root cs]
          end
      end.
Proof.
  unfold parse_traffic_response_to_dataframe, parse_traffic_body.
  destruct (String.eqb xml_data ""); [done|].
  destruct (ET_fromstring xml_data) as [root|e]; [|done].
  cbn [mbind result_bind].
  destruct (root_coordinates py_float root) as [cs|e] eqn:Hc.
  - by rewrite (segment_frame _ _ Hc).
  - by rewrite (segment_raise _ _ Hc).
Qed.

Lemma read_degree_text (name : string) (entry : Element) :
  read_degree py_float (find name entry)
  = match degree_text name entry with
    | Some s => x ← py_float s; Ok (Some x)
    | None => Ok None
    end.
Proof.
  unfold read_degree, degree_text.
  destruct (find name entry) as [el|]; [|done].
  destruct (text el) as [s|]; [|done]. by destruct (String.eqb s "").
Qed.

(** The retained pairs are those of the entries that carry both values,
    in order. *)
Lemma read_coordinates_retained (entries : list Element) :
  forall acc cs,
    read_coordinates py_float entries acc = Ok cs ->
    exists cs', cs = acc ++ cs'
                /\ Forall2 (reads_to py_float)
                           (List.filter carries_both entries) cs'.
Proof.
  induction entries as [|entry entries IH]; intros acc cs H; simpl in H.
  - injection H as <-. exists []. by rewrite app_nil_r.
  - rewrite !read_degree_text in H. simpl. unfold carries_both.
    destruct (degree_text "latitude" entry) as [la|] eqn:Ela;
      destruct (degree_text "longitude" entry) as [lo|] eqn:Elo.
    + bind_inv H. bind_inv Ha. injection Ha as <-.
      bind_inv H. bind_inv Ha. injection Ha as <-.
      destruct (IH _ _ H) as (cs' & -> & HF).
      exists ((a0, a1) :: cs'). split; [by rewrite <- app_assoc|].
      constructor; [|done]. by exists la, lo.
    + bind_inv H. bind_inv Ha. injection Ha as <-. by apply IH.
    + cbn [mbind result_bind] in H. bind_inv H. bind_inv Ha.
      injection Ha as <-. by apply IH.
    + by apply IH.
Qed.

(** The loop returns when every value that is there spells a number. *)
Lemma read_coordinates_total (entries : list Element) :
  Forall (degrees_readable py_float) entries ->
  forall acc, exists cs, read_coordinates py_float entries acc = Ok cs.
Proof using py_float.
  clear ET_fromstring coerce_object.
  induction 1 as [|entry entries Hr _ IH]; intros acc; simpl.
  - by eexists.
  - rewrite !read_degree_text.
    destruct (degree_text "latitude" entry) as [la|] eqn:Ela.
    + destruct (Hr "latitude" la) as [x ->]; [set_solver|done|].
      cbn [mbind result_bind].
      destruct (degree_text "longitude" entry) as [lo|] eqn:Elo.
      * destruct (Hr "longitude" lo) as [y ->]; [set_solver|done|].
        cbn [mbind result_bind]. apply IH.
      * cbn [mbind result_bind]. apply IH.
    + cbn [mbind result_bind].
      destruct (degree_text "longitude" entry) as [lo|] eqn:Elo.
      * destruct (Hr "longitude" lo) as [y ->]; [set_solver|done|].
        cbn [mbind result_bind]. apply IH.
      * cbn [mbind result_bind]. apply IH.
Qed.

Lemma root_coordinates_entries (root : Element) :
  root_coordinates py_float root
  = read_coordinates py_float (coordinate_entries root) [].
Proof.
  unfold root_coordinates, coordinate_entries.
  by destruct (find "coordinates" root).
Qed.

End ParserFacts.

Lemma traffic_row_cells (coerce_object : value -> value) (root : Element)
    (cs : list (float * float)) :
  let r := traffic_row coerce_object root cs in
  let scalar name := text_or_none (find name root) in
  let numeric name := to_numeric_coerce coerce_object (scalar name) in
  cell r "frc" = scalar "frc"
  /\ cell r "currentSpeed" = numeric "currentSpeed"
  /\ cell r "freeFlowSpeed" = numeric "freeFlowSpeed"
  /\ cell r "currentTravelTime" = numeric "currentTravelTime"
  /\ cell r "freeFlowTravelTime" = numeric "freeFlowTravelTime"
  /\ cell r "confidence" = numeric "confidence"
  /\ cell r "roadClosure" = VBool (str_lower_is_true (scalar "roadClosure"))
  /\ cell r "coordinate_count" = VInt (Z.of_nat (length cs))
  /\ cell r "coordinates" = VCoords cs.
Proof.
  unfold traffic_row. cbv zeta.
  generalize (text_or_none (find "frc" root)) as v1.
  generalize (text_or_none (find "currentSpeed" root)) as v2.
  generalize (text_or_none (find "freeFlowSpeed" root)) as v3.
  generalize (text_or_none (find "currentTravelTime" root)) as v4.
  generalize (text_or_none (find "freeFlowTravelTime" root)) as v5.
  generalize (text_or_none (find "confidence" root)) as v6.
  generalize (text_or_none (find "roadClosure" root)) as v7.
  intros. generalize (VInt (Z.of_nat (length cs))) as n. intros n.
  generalize (to_numeric_coerce coerce_object) as numeric. intros numeric.
  repeat split; vm_compute; reflexivity.
Qed.

Lemma filter_all {A} (f : A -> bool) (l : list A) :
  Forall (fun x => f x = true) l -> List.filter f l = l.
Proof.
  induction 1 as [|x l Hx _ IH]; simpl; [done|]. by rewrite Hx, IH.
Qed.

(** Two records whose members agree off one key read alike off that
    key. *)
Lemma list_to_map_agree_off (key : string) (l l' : list (string * value)) :
  Forall2 (fun p p' => p.1 = p'.1 /\ (p.1 <> key -> p.2 = p'.2)) l l' ->
  forall other, other <> key ->
    cell (list_to_map l) other = cell (list_to_map l') other.
Proof.
  intros HF other Hne. unfold cell. f_equal.
  induction HF as [|[k v] [k' v'] l l' [Hk Hv] _ IH]; simpl in *; [done|].
  subst k'. destruct (decide (k = other)) as [->|Hko].
  - rewrite !lookup_insert_eq. f_equal. by apply Hv.
  - by rewrite !lookup_insert_ne.
Qed.

Section TrafficClaims.

Variable ET_fromstring : string -> result Element.
Variable py_float : string -> result float.
Variable coerce_object : value -> value.

(** A well-formed document whose coordinates can be read gives one
    record. *)
Lemma traffic_one_record (xml_data : string) (root : Element)
    (cs : list (float * float)) :
  xml_data <> "" -> ET_fromstring xml_data = Ok root ->
  root_coordinates py_float root = Ok cs ->
  parse_traffic_response_to_dataframe ET_fromstring py_float coerce_object
    xml_data
  = mkDataFrame traffic_columns [traffic_row coerce_object root cs].
Proof.
  intros Hne Hroot Hcs. rewrite parse_traffic_cases.
  destruct (String.eqb_spec xml_data ""); [done|]. by rewrite Hroot, Hcs.
Qed.

(** A record that is returned is the record of a well-formed document
    whose coordinates could be read. *)
Lemma traffic_record_inv (xml_data : string) (r : gmap string value) :
  r ∈ rows (parse_traffic_response_to_dataframe ET_fromstring py_float coerce_object
    xml_data) ->
  exists root cs,
    xml_data <> "" /\ ET_fromstring xml_data = Ok root
    /\ root_coordinates py_float root = Ok cs
    /\ r = traffic_row coerce_object root cs.
Proof.
  rewrite parse_traffic_cases.
  destruct (String.eqb_spec xml_data "") as [|Hne]; [by intros ?%elem_of_nil|].
  destruct (ET_fromstring xml_data) as [root|] eqn:Hroot;
    [|by intros ?%elem_of_nil].
  destruct (root_coordinates py_float root) as [cs|] eqn:Hcs;
    [|by intros ?%elem_of_nil].
  simpl. intros ->%list_elem_of_singleton. by exists root, cs.
Qed.

(** A document whose coordinates cannot be read gives no record. *)
Lemma traffic_unreadable_degree (xml_data : string) (root : Element) (e : exn) :
  ET_fromstring xml_data = Ok root ->
  root_coordinates py_float root = Raise e ->
  parse_traffic_response_to_dataframe ET_fromstring py_float coerce_object
    xml_data = empty_frame.
Proof.
  intros Hroot Hcs. rewrite parse_traffic_cases.
  destruct (String.eqb xml_data ""); [done|]. by rewrite Hroot, Hcs.
Qed.

End TrafficClaims.

Lemma traffic_record_exists
    (ET_fromstring : string -> result Element)
    (py_float : string -> result float) (coerce_object : value -> value)
    (xml_data : string) (root : Element) :
  xml_data <> "" -> ET_fromstring xml_data = Ok root ->
  Forall (degrees_readable py_float) (coordinate_entries root) ->
  exists cs,
    parse_traffic_response_to_dataframe ET_fromstring py_float coerce_object
      xml_data
    = mkDataFrame traffic_columns [traffic_row coerce_object root cs].
Proof.
  intros Hne Hroot Hread.
  destruct (read_coordinates_total py_float _ Hread []) as [cs Hcs].
  exists cs. apply traffic_one_record; [done|done|].
  by rewrite root_coordinates_entries.
Qed.

(** C6.  In every record the traffic parser returns, [coordinate_count]
    is the length of [coordinates]; the retained pairs are, in order,
    those of the coordinate entries that supply both a latitude and a
    longitude, an entry that lacks either being dropped while the record
    stands; when all N entries supply both, the count is N; and the
    record is returned whenever the values supplied spell numbers. *)
Theorem C6_coordinate_count
    (ET_fromstring : string -> result Element)
    (py_float : string -> result float) (coerce_object : value -> value)
    (xml_data : string) :
  (forall r,
      r ∈ rows (parse_traffic_response_to_dataframe
                  ET_fromstring py_float coerce_object xml_data) ->
      exists root cs,
        ET_fromstring xml_data = Ok root
        /\ r = traffic_row coerce_object root cs
        /\ cell r "coordinates" = VCoords cs
        /\ cell r "coordinate_count" = VInt (Z.of_nat (length cs))
        /\ Forall2 (reads_to py_float)
                   (List.filter carries_both (coordinate_entries root)) cs
        /\ (Forall (fun entry => carries_both entry = true)
                   (coordinate_entries root) ->
            length cs = length (coordinate_entries root)))
  /\ (forall root,
        xml_data <> "" -> ET_fromstring xml_data = Ok root ->
        Forall (degrees_readable py_float) (coordinate_entries root) ->
        exists cs,
          parse_traffic_response_to_dataframe
            ET_fromstring py_float coerce_object xml_data
          = mkDataFrame traffic_columns [traffic_row coerce_object root cs]).
Proof.
  split.
  - intros r Hr.
    destruct (traffic_record_inv _ _ _ _ _ Hr) as (root & cs & _ & Hroot & Hcs & ->).
    exists root, cs. split; [done|]. split; [done|].
    destruct (traffic_row_cells coerce_object root cs)
      as (_ & _ & _ & _ & _ & _ & _ & Hn & Hc).
    split; [done|]. split; [done|].
    rewrite root_coordinates_entries in Hcs.
    destruct (read_coordinates_retained _ _ _ _ Hcs) as (cs' & -> & HF).
    simpl. split; [done|].
    intros Hall. rewrite (filter_all _ _ Hall) in HF.
    symmetry. by eapply Forall2_length.
  - intros root. apply traffic_record_exists.
Qed.


Lemma sample_degrees_readable :
  Forall (degrees_readable Samples.float_of_text)
         (coordinate_entries Samples.segment_root).
Proof.
  repeat constructor; intros name s Hname Hs;
    apply elem_of_cons in Hname as [->|Hname];
    try (apply elem_of_cons in Hname as [->|Hname]);
    try (by apply elem_of_nil in Hname);
    vm_compute in Hs; try discriminate Hs;
    injection Hs as <-; eexists; vm_compute; reflexivity.
Qed.

(** Three entries, the second without a longitude: two pairs are kept. *)
Lemma sample_segment_count :
  match rows (parse_traffic_response_to_dataframe Samples.fromstring
                Samples.float_of_text Samples.coerce Samples.segment_xml) with
  | [r] =>
      cell r "coordinate_count" = VInt 2
      /\ cell r "coordinates"
         = VCoords [(F64.dec 1079187 5, F64.dec 10668831 5);
                    (F64.dec 1079096 5, F64.dec 1067156 4)]
      /\ cell r "frc" = VStr "FRC2" /\ cell r "roadClosure" = VBool true
  | _ => False
  end.
Proof. vm_compute. repeat split; reflexivity. Qed.

Lemma C6_coordinate_count_witness :
  exists r root cs,
    r ∈ rows (parse_traffic_response_to_dataframe Samples.fromstring
                Samples.float_of_text Samples.coerce Samples.segment_xml)
    /\ Samples.fromstring Samples.segment_xml = Ok root
    /\ cell r "coordinates" = VCoords cs
    /\ cell r "coordinate_count" = VInt (Z.of_nat (length cs))
    /\ Forall2 (reads_to Samples.float_of_text)
               (List.filter carries_both (coordinate_entries root)) cs.
Proof.
  destruct (C6_coordinate_count Samples.fromstring Samples.float_of_text
              Samples.coerce Samples.segment_xml) as [Hinv Hex].
  destruct (Hex Samples.segment_root) as [cs Hparse].
  { intros H. vm_compute in H. discriminate H. }
  { vm_compute. reflexivity. }
  { exact sample_degrees_readable. }
  assert (traffic_row Samples.coerce Samples.segment_root cs
          ∈ rows (parse_traffic_response_to_dataframe Samples.fromstring
                    Samples.float_of_text Samples.coerce Samples.segment_xml))
    as Hin by (rewrite Hparse; apply list_elem_of_here).
  destruct (Hinv _ Hin) as (root & cs' & Hroot & _ & Hc & Hn & HF & _).
  exists (traffic_row Samples.coerce Samples.segment_root cs), root, cs'.
  repeat split; assumption.
Defined.

(** C10 at the failing input: a well-formed segment whose one latitude
    reads "abc" makes [float] raise inside the [try]; the handler for
    every other exception answers with the empty table, so the parser
    returns no record where a well-formed document should give one. *)
Theorem C10_unreadable_degree_discards_record :
  Samples.fromstring Samples.bad_degree_xml = Ok Samples.bad_degree_root
  /\ Samples.float_of_text "abc" = Raise ValueError
  /\ root_coordinates Samples.float_of_text Samples.bad_degree_root
     = Raise ValueError
  /\ parse_traffic_response_to_dataframe Samples.fromstring
       Samples.float_of_text Samples.coerce Samples.bad_degree_xml
     = empty_frame
  /\ rows (parse_traffic_response_to_dataframe Samples.fromstring
             Samples.float_of_text Samples.coerce Samples.bad_degree_xml) = [].
Proof. repeat split; vm_compute; reflexivity. Qed.

(** ** A missing scalar tag *)

Lemma root_coordinates_without_tag (py_float : string -> result float)
    (name : string) (root : Element) :
  name <> "coordinates" ->
  root_coordinates py_float (without_tag name root)
  = root_coordinates py_float root.
Proof.
  intros Hne. unfold root_coordinates. by rewrite find_without_tag_ne.
Qed.

Lemma traffic_row_without_tag (coerce_object : value -> value)
    (name : string) (root : Element) (cs : list (float * float)) :
  forall other, other <> name ->
    cell (traffic_row coerce_object (without_tag name root) cs) other
    = cell (traffic_row coerce_object root cs) other.
Proof.
  apply list_to_map_agree_off.
  repeat constructor; simpl; intros Hk; by rewrite find_without_tag_ne.
Qed.

(** C5, as the code has it.  When a scalar tag is missing from a
    well-formed document, the field of [frc] is None and the field of each
    of the five numeric tags is NaN, both null; the field of [roadClosure]
    is the boolean False; and every other field of the record is what it
    is when the tag is there with the rest of the document the same. *)
Theorem C5_missing_scalar_tag
    (ET_fromstring : string -> result Element)
    (py_float : string -> result float) (coerce_object : value -> value)
    (xml_data xml_without : string) (root : Element) (name : string)
    (cs : list (float * float)) :
  name ∈ scalar_tags ->
  xml_data <> "" -> xml_without <> "" ->
  ET_fromstring xml_data = Ok root ->
  ET_fromstring xml_without = Ok (without_tag name root) ->
  root_coordinates py_float root = Ok cs ->
  exists r r',
    parse_traffic_response_to_dataframe ET_fromstring py_float coerce_object
      xml_data = mkDataFrame traffic_columns [r]
    /\ parse_traffic_response_to_dataframe ET_fromstring py_float coerce_object
         xml_without = mkDataFrame traffic_columns [r']
    /\ cell r' name
       = (if bool_decide (name = "roadClosure") then VBool false
          else if bool_decide (name = "frc") then VNone
          else VFloat F64.nan)
    /\ (name <> "roadClosure" -> is_null (cell r' name) = true)
    /\ (forall other, other <> name -> cell r' other = cell r other).
Proof.
  intros Hname Hne Hne' Hroot Hroot' Hcs.
  assert (name <> "coordinates") as Hnc.
  { intros ->. revert Hname. apply (bool_decide_unpack _). vm_compute. exact I. }
  exists (traffic_row coerce_object root cs),
         (traffic_row coerce_object (without_tag name root) cs).
  split; [by apply traffic_one_record|].
  split.
  { apply traffic_one_record; [done|done|].
    by rewrite root_coordinates_without_tag. }
  assert (cell (traffic_row coerce_object (without_tag name root) cs) name
          = (if bool_decide (name = "roadClosure") then VBool false
             else if bool_decide (name = "frc") then VNone
             else VFloat F64.nan)) as Hcell.
  { destruct (traffic_row_cells coerce_object (without_tag name root) cs)
      as (H1 & H2 & H3 & H4 & H5 & H6 & H7 & _).
    unfold scalar_tags in Hname.
    repeat (apply elem_of_cons in Hname as [->|Hname]);
      [ rewrite H1 | rewrite H2 | rewrite H3 | rewrite H4 | rewrite H5
      | rewrite H6 | rewrite H7 | by apply elem_of_nil in Hname ];
      by rewrite find_without_tag_eq. }
  split; [exact Hcell|]. split.
  - intros Hrc. rewrite Hcell.
    destruct (bool_decide_reflect (name = "roadClosure")); [done|].
    destruct (bool_decide (name = "frc")); reflexivity.
  - apply traffic_row_without_tag.
Qed.

Lemma sample_without_closure :
  without_tag "roadClosure" Samples.segment_root = Samples.open_road_root.
Proof. vm_compute. reflexivity. Qed.

Lemma C5_missing_scalar_tag_witness :
  exists r r',
    parse_traffic_response_to_dataframe Samples.fromstring
      Samples.float_of_text Samples.coerce Samples.segment_xml
    = mkDataFrame traffic_columns [r]
    /\ parse_traffic_response_to_dataframe Samples.fromstring
         Samples.float_of_text Samples.coerce Samples.open_road_xml
       = mkDataFrame traffic_columns [r']
    /\ cell r' "roadClosure" = VBool false
    /\ (forall other, other <> "roadClosure" -> cell r' other = cell r other).
Proof.
  destruct (read_coordinates_total Samples.float_of_text _
              sample_degrees_readable []) as [cs Hcs].
  rewrite <- root_coordinates_entries in Hcs.
  destruct (C5_missing_scalar_tag Samples.fromstring Samples.float_of_text
              Samples.coerce Samples.segment_xml Samples.open_road_xml
              Samples.segment_root "roadClosure" cs)
    as (r & r' & Hp & Hp' & Hc & _ & Hf).
  - apply (bool_decide_unpack _). vm_compute. exact I.
  - intros H. vm_compute in H. discriminate H.
  - intros H. vm_compute in H. discriminate H.
  - vm_compute. reflexivity.
  - rewrite sample_without_closure. vm_compute. reflexivity.
  - exact Hcs.
  - exists r, r'. repeat split; assumption.
Defined.

(** C5, as stated, fails for [roadClosure]: without the tag the field is
    the boolean False, which is not null. *)
Lemma C5_counterexample :
  Samples.fromstring Samples.open_road_xml = Ok Samples.open_road_root
  /\ find "roadClosure" Samples.open_road_root = None
  /\ match rows (parse_traffic_response_to_dataframe Samples.fromstring
                   Samples.float_of_text Samples.coerce Samples.open_road_xml)
     with
     | [r] => cell r "roadClosure" = VBool false
              /\ is_null (cell r "roadClosure") = false
     | _ => False
     end.
Proof. vm_compute. repeat split; reflexivity. Qed.

(** ** The weather parser *)

Lemma nested_field_path (data : json) (outer inner : string) (v : value) :
  nested_field data outer inner = Ok v ->
  v = value_of_json (json_path data outer inner).
Proof.
  unfold nested_field, json_get_default, json_get, json_path.
  destruct data as [| | | | | |members]; try discriminate.
  cbn [mbind result_bind].
  destruct (members_lookup outer members) as [section|]; simpl.
  - destruct section; try discriminate. simpl. by intros [= <-].
  - by intros [= <-].
Qed.

Lemma weather_field_path (data : json) (inner : string) (v : value) :
  weather_field data inner = Ok v ->
  v = value_of_json (json_weather_path data inner).
Proof.
  unfold weather_field, json_get_default, json_get, json_weather_path.
  destruct data as [| | | | | |members]; try discriminate.
  cbn [mbind result_bind].
  destruct (members_lookup "weather" members) as [weather|]; simpl.
  - destruct weather as [| | | |s|items|]; try discriminate.
    + destruct s; discriminate.
    + destruct items as [|first rest]; [discriminate|]. simpl.
      destruct first; try discriminate. simpl. by intros [= <-].
  - by intros [= <-].
Qed.

Lemma nested_field_well_shaped (members : list (string * json))
    (outer inner : string) :
  section_ok members outer ->
  nested_field (JObj members) outer inner
  = Ok (value_of_json (json_path (JObj members) outer inner)).
Proof.
  unfold nested_field, json_get_default, json_get, json_path.
  cbn [mbind result_bind]. by intros [->|[section ->]].
Qed.

Lemma weather_field_well_shaped (members : list (string * json))
    (inner : string) :
  weather_ok members ->
  weather_field (JObj members) inner
  = Ok (value_of_json (json_weather_path (JObj members) inner)).
Proof.
  unfold weather_field, json_get_default, json_get, json_weather_path.
  cbn [mbind result_bind]. by intros [->|(first & rest & ->)].
Qed.

Section WeatherFacts.

Variable coerce_object : value -> value.
Variable json_loads : string -> result json.

Lemma weather_frame (now : string) (data : json)
    (location_coords : gmap string value) (record : list (string * value)) :
  weather_record now data location_coords = Ok record ->
  coerce_weather_frame coerce_object (DataFrame_of_records [record])
  = mkDataFrame weather_columns
      [weather_row coerce_object now data location_coords].
Proof using Type.
  clear json_loads. unfold weather_record. intros H.
  repeat (let Hf := fresh "Hf" in
          apply bind_Ok in H; destruct H as (? & Hf & H);
          first [ apply nested_field_path in Hf
                | apply weather_field_path in Hf
                | idtac ]).
  injection H as <-. subst.
  apply bind_Ok in Hf8 as (top & Htop & Hv). injection Hv as <-.
  assert (top = json_top data "name") as ->.
  { unfold json_get in Htop. unfold json_top.
    destruct data; try discriminate. by injection Htop as <-. }
  unfold weather_row. cbv zeta.
  generalize (cell location_coords "lat") as lat.
  generalize (cell location_coords "lon") as lon.
  generalize (value_of_json (json_path data "main" "temp")) as v1.
  generalize (value_of_json (json_path data "main" "feels_like")) as v2.
  generalize (value_of_json (json_path data "main" "pressure")) as v3.
  generalize (value_of_json (json_path data "main" "humidity")) as v4.
  generalize (value_of_json (json_path data "wind" "speed")) as v5.
  generalize (value_of_json (json_path data "wind" "deg")) as v6.
  generalize (value_of_json (json_weather_path data "description")) as v7.
  generalize (value_of_json (json_weather_path data "icon")) as v8.
  generalize (value_of_json (json_path data "clouds" "all")) as v9.
  generalize (value_of_json (json_top data "name")) as v10.
  intros. generalize (VStr now) as ts. intros ts.
  unfold coerce_weather_frame.
  generalize (to_numeric_coerce coerce_object) as numeric. intros numeric.
  vm_compute. reflexivity.
Qed.
End WeatherFacts.



Section WeatherClaims.

Variable coerce_object : value -> value.
Variable json_loads : string -> result json.

Lemma weather_record_well_shaped (now : string)
    (members : list (string * json)) (location_coords : gmap string value) :
  well_shaped members ->
  exists record,
    weather_record now (JObj members) location_coords = Ok record.
Proof using Type.
  clear. intros (Hm & Hw & Hc & Hl). unfold weather_record.
  rewrite !(nested_field_well_shaped _ "main") by done.
  rewrite !(nested_field_well_shaped _ "wind") by done.
  rewrite !(nested_field_well_shaped _ "clouds") by done.
  rewrite !weather_field_well_shaped by done.
  cbn [mbind result_bind json_get]. by eexists.
Qed.

Lemma weather_record_not_object (now : string) (data : json)
    (location_coords : gmap string value) :
  (forall members, data <> JObj members) ->
  exists e, weather_record now data location_coords = Raise e.
Proof using Type.
  clear. intros Hno. unfold weather_record, nested_field, json_get_default.
  destruct data; try (by eexists). by destruct (Hno members).
Qed.

Lemma weather_one_record (now json_data : string)
    (members : list (string * json)) (location_coords : gmap string value) :
  json_data <> "" -> json_loads json_data = Ok (JObj members) ->
  well_shaped members ->
  parse_weather_response_to_dataframe coerce_object json_loads now json_data
    location_coords
  = mkDataFrame weather_columns
      [weather_row coerce_object now (JObj members) location_coords].
Proof.
  intros Hne Hdata Hshape.
  unfold parse_weather_response_to_dataframe, parse_weather_body.
  destruct (String.eqb_spec json_data ""); [done|]. rewrite Hdata.
  cbn [mbind result_bind].
  destruct (weather_record_well_shaped now members location_coords Hshape)
    as [record Hrec].
  rewrite Hrec. cbn [mbind result_bind].
  by rewrite (weather_frame _ _ _ _ _ Hrec).
Qed.


Lemma weather_no_record (now json_data : string)
    (location_coords : gmap string value) :
  json_data = ""
  \/ (exists e, json_loads json_data = Raise e)
  \/ (exists data, json_loads json_data = Ok data
                   /\ forall members, data <> JObj members) ->
  parse_weather_response_to_dataframe coerce_object json_loads now json_data
    location_coords = empty_frame.
Proof.
  unfold parse_weather_response_to_dataframe, parse_weather_body.
  intros [->|[[e He]|(data & Hd & Hno)]]; [done| |].
  - destruct (String.eqb json_data ""); [done|]. by rewrite He.
  - destruct (String.eqb json_data ""); [done|]. rewrite Hd.
    cbn [mbind result_bind].
    destruct (weather_record_not_object now data location_coords Hno)
      as [e ->]. done.
Qed.

End WeatherClaims.


Lemma sample_weather_shape :
  well_shaped [("main", JObj [("humidity", JInt 70)]); ("name", JStr "Saigon")].
Proof.
  repeat split; first [by left | right; by eexists | right; by do 2 eexists].
Qed.


(** ** What makes a parser answer with the empty table *)

(** C2, as the code has it.  Neither parser lets an exception out: each
    answers with a table.  The traffic parser answers with the empty
    table for an empty payload and for one that is not well-formed XML,
    and with one record for every well-formed document whose coordinate
    values spell numbers, whatever its root and whichever scalar tags or
    coordinate values are missing.  The weather parser answers with the
    empty table for an empty payload, for one that is not JSON and for a
    JSON value that is not an object, and with one record for every
    object whose sections have the expected shape, whichever fields are
    missing. *)
Theorem C2_empty_result_cases
    (ET_fromstring : string -> result Element)
    (py_float : string -> result float) (coerce_object : value -> value)
    (json_loads : string -> result json) :
  (forall xml_data,
      xml_data = "" \/ (exists e, ET_fromstring xml_data = Raise e) ->
      parse_traffic_response_to_dataframe ET_fromstring py_float coerce_object
        xml_data = empty_frame)
  /\ (forall xml_data root,
        xml_data <> "" -> ET_fromstring xml_data = Ok root ->
        Forall (degrees_readable py_float) (coordinate_entries root) ->
        exists cs,
          parse_traffic_response_to_dataframe ET_fromstring py_float
            coerce_object xml_data
          = mkDataFrame traffic_columns [traffic_row coerce_object root cs])
  /\ (forall now json_data location_coords,
        json_data = ""
        \/ (exists e, json_loads json_data = Raise e)
        \/ (exists data, json_loads json_data = Ok data
                         /\ forall members, data <> JObj members) ->
        parse_weather_response_to_dataframe coerce_object json_loads now
          json_data location_coords = empty_frame)
  /\ (forall now json_data location_coords members,
        json_data <> "" -> json_loads json_data = Ok (JObj members) ->
        well_shaped members ->
        parse_weather_response_to_dataframe coerce_object json_loads now
          json_data location_coords
        = mkDataFrame weather_columns
            [weather_row coerce_object now (JObj members) location_coords]).
Proof.
  split; [|split; [|split]].
  - intros xml_data [->|[e He]]; rewrite parse_traffic_cases; [done|].
    destruct (String.eqb xml_data ""); [done|]. by rewrite He.
  - intros xml_data root. apply traffic_record_exists.
  - intros. by apply weather_no_record.
  - intros. by apply weather_one_record.
Qed.

Lemma C2_empty_result_cases_witness :
  parse_traffic_response_to_dataframe Samples.fromstring Samples.float_of_text
    Samples.coerce Samples.malformed_xml = empty_frame
  /\ (exists cs,
        parse_traffic_response_to_dataframe Samples.fromstring
          Samples.float_of_text Samples.coerce Samples.segment_xml
        = mkDataFrame traffic_columns
            [traffic_row Samples.coerce Samples.segment_root cs])
  /\ parse_weather_response_to_dataframe Samples.coerce Samples.loads
       Samples.midnight "[]" Samples.location = empty_frame
  /\ parse_weather_response_to_dataframe Samples.coerce Samples.loads
       Samples.midnight Samples.weather_json Samples.location
     = mkDataFrame weather_columns
         [weather_row Samples.coerce Samples.midnight Samples.weather_data
            Samples.location].
Proof.
  destruct (C2_empty_result_cases Samples.fromstring Samples.float_of_text
              Samples.coerce Samples.loads) as (Ht0 & Ht1 & Hw0 & Hw1).
  split; [|split; [|split]].
  - apply Ht0. right. exists ParseError. vm_compute. reflexivity.
  - apply Ht1.
    + intros H. vm_compute in H. discriminate H.
    + vm_compute. reflexivity.
    + exact sample_degrees_readable.
  - apply Hw0. right. right. exists (JArr []). split; [vm_compute; reflexivity|].
    discriminate.
  - apply Hw1.
    + intros H. vm_compute in H. discriminate H.
    + vm_compute. reflexivity.
    + exact sample_weather_shape.
Defined.

(** C2, as stated, fails: a well-formed document of an unexpected
    top-level shape, with none of the tags of a flow segment, is answered
    with a record of nulls, not with the empty table. *)
Lemma C2_counterexample :
  Samples.fromstring Samples.notice_xml = Ok Samples.notice_root
  /\ expected_top_level Samples.notice_root = false
  /\ Forall (fun name => find name Samples.notice_root = None)
            (scalar_tags ++ ["coordinates"])
  /\ df_empty (parse_traffic_response_to_dataframe Samples.fromstring
                 Samples.float_of_text Samples.coerce Samples.notice_xml)
     = false
  /\ length (rows (parse_traffic_response_to_dataframe Samples.fromstring
                     Samples.float_of_text Samples.coerce Samples.notice_xml))
     = 1%nat.
Proof.
  split; [vm_compute; reflexivity|]. split; [vm_compute; reflexivity|].
  split; [repeat constructor|]. split; vm_compute; reflexivity.
Qed.

(** ** The store loader *)

Lemma load_empty (df : DataFrame) (db_path table_name : string) (w : World) :
  df_empty df = true ->
  load_transformed_data_to_duckdb df db_path table_name w
  = (Ok tt,
     mkWorld (databases w) (connect_ok w) (execute_ok w)
             (trace w ++ [Print StartingLoadPhase; Print NoDataToLoad])).
Proof.
  intros He. unfold load_transformed_data_to_duckdb. rewrite He.
  unfold emit. simpl. by rewrite <- app_assoc.
Qed.

Lemma load_success (df : DataFrame) (db_path table_name : string) (w : World) :
  df_empty df = false ->
  connect_ok w db_path = true ->
  execute_ok w db_path table_name df = true ->
  load_transformed_data_to_duckdb df db_path table_name w
  = (Ok tt,
     mkWorld
       (<[db_path := <[table_name := df]> (tables_at db_path w)]> (databases w))
       (connect_ok w) (execute_ok w)
       (trace w ++ [Print StartingLoadPhase; Connect db_path;
                    Print (ConnectedTo db_path); Print (LoadingInto table_name);
                    Execute db_path table_name;
                    Print (LoadedRows (length (rows df)) table_name);
                    Close db_path; Print ConnectionClosed;
                    Print LoadPhaseComplete])).
Proof.
  intros He Hc Hx.
  unfold load_transformed_data_to_duckdb, load_try, duckdb_connect,
    duckdb_create_or_replace, emit, tables_at.
  rewrite He. simpl. rewrite Hc. simpl. rewrite Hx. simpl.
  rewrite lookup_insert_eq. simpl. rewrite insert_insert_eq.
  repeat rewrite <- app_assoc. done.
Qed.

Lemma load_connect_fails (df : DataFrame) (db_path table_name : string)
    (w : World) :
  df_empty df = false ->
  connect_ok w db_path = false ->
  load_transformed_data_to_duckdb df db_path table_name w
  = (Ok tt,
     mkWorld (databases w) (connect_ok w) (execute_ok w)
       (trace w ++ [Print StartingLoadPhase; Connect db_path;
                    Print (ErrorLoading IOError); Print LoadPhaseComplete])).
Proof.
  intros He Hc.
  unfold load_transformed_data_to_duckdb, load_try, duckdb_connect, emit.
  rewrite He. simpl. rewrite Hc. simpl. repeat rewrite <- app_assoc. done.
Qed.

Lemma load_execute_fails (df : DataFrame) (db_path table_name : string)
    (w : World) :
  df_empty df = false ->
  connect_ok w db_path = true ->
  execute_ok w db_path table_name df = false ->
  load_transformed_data_to_duckdb df db_path table_name w
  = (Ok tt,
     mkWorld (<[db_path := tables_at db_path w]> (databases w))
       (connect_ok w) (execute_ok w)
       (trace w ++ [Print StartingLoadPhase; Connect db_path;
                    Print (ConnectedTo db_path); Print (LoadingInto table_name);
                    Execute db_path table_name;
                    Print (ErrorLoading DatabaseError);
                    Close db_path; Print ConnectionClosed;
                    Print LoadPhaseComplete])).
Proof.
  intros He Hc Hx.
  unfold load_transformed_data_to_duckdb, load_try, duckdb_connect,
    duckdb_create_or_replace, emit, tables_at.
  rewrite He. simpl. rewrite Hc. simpl. rewrite Hx. simpl.
  repeat rewrite <- app_assoc. done.
Qed.

Lemma tables_at_insert (db_path : string) (tables : gmap string DataFrame)
    (dbs : gmap string (gmap string DataFrame)) c e (tr : list event) :
  tables_at db_path (mkWorld (<[db_path := tables]> dbs) c e tr) = tables.
Proof. unfold tables_at. simpl. by rewrite lookup_insert_eq. Qed.

(** C8.  Loading an empty table is a no-op: no connection is opened, no
    statement is run and every database is as it was.  Loading a
    non-empty table into a store that takes the write leaves the table
    under its name holding exactly the rows loaded, created if it was not
    there and replaced if it was, other tables and databases untouched;
    so after two loads under one name the table holds the second load,
    its row count the second's, not the sum. *)
Theorem C8_full_refresh_load (db_path table_name : string) (w : World) :
  (forall df,
      df_empty df = true ->
      let out := load_transformed_data_to_duckdb df db_path table_name w in
      out.1 = Ok tt
      /\ databases out.2 = databases w
      /\ exists printed,
           trace out.2 = trace w ++ printed
           /\ Forall (fun ev => is_attempt ev = false) printed)
  /\ (forall df,
        df_empty df = false ->
        connect_ok w db_path = true ->
        execute_ok w db_path table_name df = true ->
        let out := load_transformed_data_to_duckdb df db_path table_name w in
        tables_at db_path out.2 !! table_name = Some df
        /\ (forall other, other <> table_name ->
              tables_at db_path out.2 !! other = tables_at db_path w !! other)
        /\ (forall path, path <> db_path ->
              databases out.2 !! path = databases w !! path))
  /\ (forall df1 df2,
        df_empty df1 = false -> df_empty df2 = false ->
        connect_ok w db_path = true ->
        execute_ok w db_path table_name df1 = true ->
        execute_ok w db_path table_name df2 = true ->
        let w1 := (load_transformed_data_to_duckdb df1 db_path table_name w).2 in
        let w2 := (load_transformed_data_to_duckdb df2 db_path table_name w1).2 in
        tables_at db_path w2 !! table_name = Some df2
        /\ length (rows (default empty_frame
                           (tables_at db_path w2 !! table_name)))
           = length (rows df2)).
Proof.
  split; [|split].
  - intros df He. cbv zeta. rewrite (load_empty _ _ _ _ He). simpl.
    split; [done|]. split; [done|]. eexists. split; [done|].
    by repeat constructor.
  - intros df He Hc Hx. cbv zeta. rewrite (load_success _ _ _ _ He Hc Hx).
    cbn [fst snd]. rewrite tables_at_insert.
    split; [by rewrite lookup_insert_eq|]. split.
    + intros other Hne. by rewrite lookup_insert_ne.
    + intros path Hne. cbn [databases]. by rewrite lookup_insert_ne.
  - intros df1 df2 He1 He2 Hc Hx1 Hx2. cbv zeta.
    rewrite (load_success _ _ _ _ He1 Hc Hx1). cbn [fst snd].
    rewrite load_success by done. cbn [fst snd].
    rewrite tables_at_insert. by rewrite lookup_insert_eq.
Qed.

Lemma C8_full_refresh_load_witness :
  let w1 := (load_transformed_data_to_duckdb Samples.no_speed
               "traffic_data.duckdb" "traffic_data" working_store).2 in
  let w2 := (load_transformed_data_to_duckdb (Samples.one_row (F64.of_Z 36))
               "traffic_data.duckdb" "traffic_data" w1).2 in
  tables_at "traffic_data.duckdb" w1 !! "traffic_data" = Some Samples.no_speed
  /\ tables_at "traffic_data.duckdb" w2 !! "traffic_data"
     = Some (Samples.one_row (F64.of_Z 36))
  /\ length (rows (default empty_frame
                     (tables_at "traffic_data.duckdb" w2 !! "traffic_data")))
     = 1%nat
  /\ databases (load_transformed_data_to_duckdb empty_frame
                  "traffic_data.duckdb" "traffic_data" w1).2
     = databases w1.
Proof.
  cbv zeta.
  destruct (C8_full_refresh_load "traffic_data.duckdb" "traffic_data"
              working_store) as (_ & Hone & Htwo).
  split; [exact (proj1 (Hone Samples.no_speed eq_refl eq_refl eq_refl))|].
  split; [exact (proj1 (Htwo Samples.no_speed (Samples.one_row (F64.of_Z 36))
                          eq_refl eq_refl eq_refl eq_refl eq_refl))|].
  split; [exact (proj2 (Htwo Samples.no_speed (Samples.one_row (F64.of_Z 36))
                          eq_refl eq_refl eq_refl eq_refl eq_refl))|].
  destruct (C8_full_refresh_load "traffic_data.duckdb" "traffic_data"
              (load_transformed_data_to_duckdb Samples.no_speed
                 "traffic_data.duckdb" "traffic_data" working_store).2)
    as (Hempty & _ & _).
  exact (proj1 (proj2 (Hempty empty_frame eq_refl))).
Defined.

(** ** A store that fails *)

Lemma load_returns (df : DataFrame) (db_path table_name : string) (w : World) :
  (load_transformed_data_to_duckdb df db_path table_name w).1 = Ok tt.
Proof.
  unfold load_transformed_data_to_duckdb.
  destruct (df_empty df); [done|].
  by destruct (load_try _ _ _ _) as [[con outcome] w'].
Qed.

Lemma main_loads
    (read_parquet : string -> result DataFrame)
    (extract : list string -> list string) (script_dir : string)
    (CONFIG : Config) (w : World) key point points path paths df avgs est :
  TOMTOM_API_KEY CONFIG = Some key -> key <> "" ->
  ROUTE_POINTS_EXAMPLE CONFIG = point :: points ->
  extract (point :: points) = path :: paths ->
  transform_traffic_data read_parquet (path :: paths) = Ok (df, avgs, est) ->
  df_empty df = false ->
  exists w0,
    main read_parquet extract script_dir CONFIG w
    = (Ok tt,
       emit (Print PipelineFinished)
            (load_transformed_data_to_duckdb df
               (script_dir +:+ "/traffic_data.duckdb") "traffic_data" w0).2).
Proof.
  intros Hkey Hne Hpoints Hpaths Ht He. unfold main.
  rewrite Hkey. destruct key as [|c key]; [done|].
  rewrite Hpoints, Hpaths, Ht, He.
  match goal with
  | |- context [load_transformed_data_to_duckdb df ?p ?t ?w0] =>
      exists w0; pose proof (load_returns df p t w0) as Hr;
      destruct (load_transformed_data_to_duckdb df p t w0) as [r w1]
  end.
  simpl in Hr. by rewrite Hr.
Qed.

(** C9, as the code has it.  When the store cannot be reached or the
    write fails, the loader makes one attempt and no second one, prints
    the error, closes the connection if one was opened (once, after the
    error is printed; when the connect itself failed there is nothing to
    close and nothing is closed), leaves the tables as they were, and
    returns to its caller as it does after a load that worked: nothing is
    raised.  The orchestrator therefore goes on and finishes the pipeline
    normally. *)
Theorem C9_store_failure_is_printed
    (df : DataFrame) (db_path table_name : string) (w : World) :
  df_empty df = false ->
  connect_ok w db_path = false
  \/ (connect_ok w db_path = true
      /\ execute_ok w db_path table_name df = false) ->
  let out := load_transformed_data_to_duckdb df db_path table_name w in
  out.1 = Ok tt
  /\ ~ reports_failure out.1
  /\ tables_at db_path out.2 = tables_at db_path w
  /\ (exists printed e,
        trace out.2 = trace w ++ printed
        /\ Print (ErrorLoading e) ∈ printed
        /\ (List.filter is_attempt printed = [Connect db_path]
            \/ List.filter is_attempt printed
               = [Connect db_path; Execute db_path table_name])
        /\ List.filter is_connection_event printed
           = (if connect_ok w db_path
              then [Connect db_path; Close db_path]
              else [Connect db_path])
        /\ (connect_ok w db_path = true ->
            exists before after,
              printed = before ++ Print (ErrorLoading e) :: Close db_path
                                  :: Print ConnectionClosed :: after))
  /\ (forall read_parquet extract script_dir CONFIG w0
             key point points path paths avgs est,
        TOMTOM_API_KEY CONFIG = Some key -> key <> "" ->
        ROUTE_POINTS_EXAMPLE CONFIG = point :: points ->
        extract (point :: points) = path :: paths ->
        transform_traffic_data read_parquet (path :: paths)
        = Ok (df, avgs, est) ->
        let run := main read_parquet extract script_dir CONFIG w0 in
        run.1 = Ok tt /\ last (trace run.2) = Some (Print PipelineFinished)).
Proof.
  intros He Hfail. cbv zeta.
  assert (forall r : result unit, r = Ok tt -> ~ reports_failure r) as Hno.
  { intros r -> [e Hr]. discriminate Hr. }
  split; [|split; [|split; [|split]]].
  - by destruct Hfail as [Hc|[Hc Hx]];
      [rewrite load_connect_fails | rewrite load_execute_fails].
  - apply Hno.
    by destruct Hfail as [Hc|[Hc Hx]];
      [rewrite load_connect_fails | rewrite load_execute_fails].
  - destruct Hfail as [Hc|[Hc Hx]].
    + by rewrite load_connect_fails.
    + rewrite load_execute_fails by done. cbn [snd].
      by rewrite tables_at_insert.
  - destruct Hfail as [Hc|[Hc Hx]].
    + rewrite load_connect_fails by done. cbn [snd trace].
      eexists _, IOError. split; [done|].
      split; [apply list_elem_of_In; simpl; tauto|].
      split; [by left|]. rewrite Hc. split; [done|]. discriminate.
    + rewrite load_execute_fails by done. cbn [snd trace].
      eexists _, DatabaseError. split; [done|].
      split; [apply list_elem_of_In; simpl; tauto|].
      split; [by right|]. rewrite Hc. split; [done|]. intros _.
      by exists [Print StartingLoadPhase; Connect db_path;
                 Print (ConnectedTo db_path); Print (LoadingInto table_name);
                 Execute db_path table_name], [Print LoadPhaseComplete].
  - intros read_parquet extract script_dir CONFIG w0 key point points path
      paths avgs est Hkey Hne Hpoints Hpaths Ht.
    destruct (main_loads read_parquet extract script_dir CONFIG w0 key point
                points path paths df avgs est) as [w1 ->]; try done.
    cbn [fst snd]. split; [done|]. unfold emit. cbn [trace].
    by rewrite last_snoc.
Qed.

Lemma C9_store_failure_is_printed_witness :
  let out := load_transformed_data_to_duckdb Samples.no_speed
               "traffic_data.duckdb" "traffic_data" unreachable_store in
  out.1 = Ok tt
  /\ tables_at "traffic_data.duckdb" out.2 = ∅
  /\ let run := main Samples.no_speed_file (fun _ => ["p1.parquet"]) "/app"
                  Samples.config unreachable_store in
     run.1 = Ok tt /\ last (trace run.2) = Some (Print PipelineFinished).
Proof.
  cbv zeta.
  destruct (C9_store_failure_is_printed Samples.no_speed "traffic_data.duckdb"
              "traffic_data" unreachable_store eq_refl (or_introl eq_refl))
    as (Hret & _ & Htables & _ & Hmain).
  split; [exact Hret|]. split; [exact Htables|].
  pose proof sample_no_speed_result as Hs.
  destruct (transform_traffic_data Samples.no_speed_file ["p1.parquet"])
    as [[[df avgs] est]|e] eqn:H; [|destruct Hs].
  assert (df = Samples.no_speed) as ->.
  { rewrite transform_by_frames in H.
    apply transform_frames_averages in H as [-> _]; [reflexivity|].
    vm_compute. discriminate. }
  exact (Hmain Samples.no_speed_file (fun _ => ["p1.parquet"]) "/app"
           Samples.config unreachable_store "key" "10.79187,106.68831" []
           "p1.parquet" [] avgs est eq_refl ltac:(discriminate) eq_refl
           eq_refl H).
Defined.

(** C9, as stated, fails: with the store out of reach the loader returns
    to the orchestrator as after a load that worked, and the orchestrator
    finishes the run. *)
Lemma C9_counterexample :
  connect_ok unreachable_store "/app/traffic_data.duckdb" = false
  /\ df_empty Samples.no_speed = false
  /\ ~ reports_failure
       (load_transformed_data_to_duckdb Samples.no_speed
          "/app/traffic_data.duckdb" "traffic_data" unreachable_store).1
  /\ (load_transformed_data_to_duckdb Samples.no_speed
        "/app/traffic_data.duckdb" "traffic_data" unreachable_store).1
     = (load_transformed_data_to_duckdb Samples.no_speed
          "/app/traffic_data.duckdb" "traffic_data" working_store).1
  /\ ~ reports_failure
       (main Samples.no_speed_file (fun _ => ["p1.parquet"]) "/app"
          Samples.config unreachable_store).1.
Proof.
  split; [reflexivity|]. split; [reflexivity|].
  split; [intros [e He]; vm_compute in He; discriminate He|].
  split; [vm_compute; reflexivity|].
  intros [e He]. vm_compute in He. discriminate He.
Qed.

(** * More of the code *)

(** ** File names *)

Lemma str_replace_length (old new : ascii) (s : string) :
  String.length (str_replace old (String new EmptyString) s) = String.length s.
Proof.
  induction s as [|c s IH]; [done|]. cbn [str_replace].
  destruct (Ascii.eqb c old); simpl; f_equal; exact IH.
Qed.

Lemma str_replace_chars (old new : ascii) (s : string) (c : ascii) :
  In c (list_ascii_of_string (str_replace old (String new EmptyString) s)) ->
  c = new \/ (c <> old /\ In c (list_ascii_of_string s)).
Proof.
  induction s as [|c0 s IH]; [done|]. cbn [str_replace].
  destruct (Ascii.eqb_spec c0 old) as [->|Hne]; simpl.
  - intros [<-|Hin]; [by left|]. destruct (IH Hin) as [->|[? ?]]; [by left|].
    right. split; [done|by right].
  - intros [<-|Hin]; [right; split; [done|by left]|].
    destruct (IH Hin) as [->|[? ?]]; [by left|]. right. split; [done|by right].
Qed.

(** X1.  The point identifier that goes into a file name has neither a
    dot nor a comma left, and is as long as the identifier given. *)
Theorem X1_safe_point_id (point_identifier : string) :
  let safe_point_id :=
    str_replace "," "-" (str_replace "." "_" point_identifier) in
  String.length safe_point_id = String.length point_identifier
  /\ (forall c, In c (list_ascii_of_string safe_point_id) ->
                c <> "."%char /\ c <> ","%char)
  /\ forall folder timestamp,
       construct_file_path folder timestamp point_identifier
       = os_path_join folder
           ("traffic_data_" +:+ safe_point_id +:+ "_" +:+ timestamp
            +:+ ".parquet").
Proof.
  cbv zeta. split; [by rewrite !str_replace_length|]. split; [|done].
  intros c Hc. apply str_replace_chars in Hc as [->|[Hcomma Hc]]; [done|].
  apply str_replace_chars in Hc as [->|[Hdot _]]; done.
Qed.

(** ** The extraction loop *)

Section ExtractionFacts.

Variable ET_fromstring : string -> result Element.
Variable py_float : string -> result float.
Variable coerce_object : value -> value.
Variable api_key : string.
Variable folder : string.
Variable fetch_data_from_api : string -> option string.
Variable strftime_now : nat -> string.
Variable write_ok : string -> DataFrame -> bool.

#[local] Abbreviation data :=
  (point_data ET_fromstring py_float coerce_object api_key fetch_data_from_api).
#[local] Abbreviation step :=
  (extract_point ET_fromstring py_float coerce_object api_key folder
     fetch_data_from_api strftime_now write_ok).
#[local] Abbreviation extract :=
  (extract_traffic_data_for_areas ET_fromstring py_float coerce_object api_key
     folder fetch_data_from_api strftime_now write_ok).

Lemma step_paths (acc : list string) (d : Disk) (p : string) :
  step (acc, d) p = (acc ++ (step ([], d) p).1, (step ([], d) p).2).
Proof.
  unfold extract_point. destruct (data p); simpl; [done|by rewrite app_nil_r].
Qed.

Lemma extract_acc (points : list string) :
  forall acc d,
    foldl step (acc, d) points
    = (acc ++ (foldl step ([], d) points).1, (foldl step ([], d) points).2).
Proof.
  induction points as [|p ps IH]; intros acc d; cbn [foldl fst snd].
  - by rewrite app_nil_r.
  - rewrite step_paths. destruct (step ([], d) p) as [ps1 d1]. simpl.
    rewrite IH. rewrite (IH ps1). simpl. by rewrite <- app_assoc.
Qed.

Lemma extract_cons (p : string) (points : list string) (d : Disk) :
  extract (p :: points) d
  = match data p with
    | Some df =>
        let file_path :=
          construct_file_path folder (strftime_now (clock_reads d)) p in
        let d1 := save_to_parquet write_ok df file_path (tick d) in
        (file_path :: (extract points d1).1, (extract points d1).2)
    | None => extract points d
    end.
Proof.
  unfold extract_traffic_data_for_areas. cbn [foldl].
  unfold extract_point at 2.
  destruct (data p) as [df|]; [|done]. rewrite extract_acc. done.
Qed.
Lemma extract_app (pre post : list string) (d : Disk) :
  extract (pre ++ post) d
  = ((extract pre d).1 ++ (extract post (extract pre d).2).1,
     (extract post (extract pre d).2).2).
Proof.
  unfold extract_traffic_data_for_areas. rewrite foldl_app.
  destruct (foldl step ([], d) pre) as [paths d1]. cbn [fst snd].
  apply extract_acc.
Qed.

(** X2.  The extraction returns one path for each point that produced
    data, in the order of the points, each stamped with its own reading of
    the clock, and reads the clock once for each of them; no points give
    no paths and leave the disk alone. *)
Theorem X2_one_path_per_point_with_data (points : list string) (d : Disk) :
  let out := extract points d in
  Forall2 (fun p path =>
             exists n, (clock_reads d <= n < clock_reads out.2)%nat
                       /\ path = construct_file_path folder (strftime_now n) p)
          (List.filter (fun p => bool_decide (is_Some (data p))) points) out.1
  /\ clock_reads out.2 = (clock_reads d + length out.1)%nat
  /\ (length out.1 <= length points)%nat
  /\ extract [] d = ([], d).
Proof.
  cbv zeta. split; [|split; [|split; [|done]]].
  - revert d. induction points as [|p ps IH]; intros d; [constructor|].
    rewrite extract_cons. cbn [List.filter].
    destruct (data p) as [df|] eqn:Hp; cbn [fst snd].
    + rewrite bool_decide_eq_true_2 by done.
      set (d1 := save_to_parquet write_ok df _ (tick d)).
      assert (clock_reads d1 = S (clock_reads d)) as Hd1.
      { unfold d1, save_to_parquet. by destruct (write_ok _ _). }
      assert (clock_reads d1 <= clock_reads (extract ps d1).2)%nat as Hmono.
      { clear. generalize d1. clear d1.
        induction ps as [|q qs IHq]; intros d1; [done|].
        rewrite extract_cons. destruct (data q); cbn [fst snd]; [|apply IHq].
        etrans; [|apply IHq]. unfold save_to_parquet.
        destruct (write_ok _ _); simpl; lia. }
      constructor.
      * exists (clock_reads d). split; [lia|done].
      * eapply Forall2_impl; [apply IH|]. intros q path (n & Hn & ->).
        exists n. split; [lia|done].
    + rewrite bool_decide_eq_false_2 by (intros [? ?]; done). apply IH.
  - revert d. induction points as [|p ps IH]; intros d; [simpl; lia|].
    rewrite extract_cons.
    destruct (data p) as [df|]; cbn [fst snd length]; [|apply IH].
    rewrite IH. unfold save_to_parquet. destruct (write_ok _ _); simpl; lia.
  - revert d. induction points as [|p ps IH]; intros d; [done|].
    rewrite extract_cons. destruct (data p) as [df|]; cbn [fst snd length].
    + specialize (IH (save_to_parquet write_ok df
                        (construct_file_path folder
                           (strftime_now (clock_reads d)) p) (tick d))). lia.
    + specialize (IH d). lia.
Qed.

(** X3.  A point whose fetch fails, whose response is empty or whose
    response parses to no record is passed over: the paths returned and
    the disk are those of the run without it. *)
Theorem X3_point_without_data_skipped (pre post : list string) (p : string)
    (d : Disk) :
  data p = None ->
  extract (pre ++ p :: post) d = extract (pre ++ post) d.
Proof.
  intros Hp. rewrite !extract_app. rewrite extract_cons, Hp. done.
Qed.

(** X4.  A file that cannot be written is still listed: the path of a
    point with data is returned although the disk is as it was, so a later
    read of that path fails unless an older file has the name. *)
Theorem X4_failed_save_still_listed (p : string) (df : DataFrame) (d : Disk) :
  data p = Some df ->
  write_ok (construct_file_path folder (strftime_now (clock_reads d)) p) df
  = false ->
  let path := construct_file_path folder (strftime_now (clock_reads d)) p in
  (extract [p] d).1 = [path]
  /\ files (extract [p] d).2 = files d
  /\ read_from (extract [p] d).2 path = read_from d path.
Proof.
  intros Hp Hw. cbv zeta. rewrite extract_cons, Hp. simpl.
  unfold save_to_parquet. rewrite Hw. done.
Qed.

(** The cells [pd.to_numeric] makes are numbers or NaN. *)
Hypothesis coerce_numeric :
  forall v, exists o, numeric_cell (coerce_object v) = Ok o.

Lemma to_numeric_text_numeric (e : option Element) :
  exists o,
    numeric_cell (to_numeric_coerce coerce_object (text_or_none e)) = Ok o.
Proof using coerce_numeric.
  destruct e as [[t [s|] cs]|]; simpl; [apply coerce_numeric| |]; by eexists.
Qed.

Lemma parsed_frame_numeric (xml_data : string) :
  numeric_frame
    (parse_traffic_response_to_dataframe ET_fromstring py_float coerce_object
       xml_data).
Proof using coerce_numeric.
  rewrite parse_traffic_cases. unfold numeric_frame.
  destruct (String.eqb xml_data ""); [constructor|].
  destruct (ET_fromstring xml_data) as [root|]; [|constructor].
  destruct (root_coordinates py_float root) as [cs|]; [|constructor].
  cbn [rows]. constructor; [|constructor].
  destruct (traffic_row_cells coerce_object root cs)
    as (_ & H1 & H2 & H3 & H4 & H5 & _).
  unfold numeric_cols_for_avg.
  repeat constructor;
    [rewrite H1 | rewrite H2 | rewrite H3 | rewrite H4 | rewrite H5];
    apply to_numeric_text_numeric.
Qed.

Lemma point_data_numeric (p : string) (df : DataFrame) :
  data p = Some df -> numeric_frame df.
Proof using coerce_numeric.
  unfold point_data. destruct (fetch_data_from_api _) as [xml|]; [|done].
  destruct (String.eqb xml ""); [done|].
  destruct (df_empty _); [done|]. intros [= <-]. apply parsed_frame_numeric.
Qed.

Lemma extract_files_numeric (points : list string) :
  forall d,
    map_Forall (fun _ df => numeric_frame df) (files d) ->
    map_Forall (fun _ df => numeric_frame df) (files (extract points d).2).
Proof using coerce_numeric.
  induction points as [|p ps IH]; intros d Hd; [done|].
  rewrite extract_cons. destruct (data p) as [df|] eqn:Hp; [|by apply IH].
  cbn [snd]. apply IH. unfold save_to_parquet.
  destruct (write_ok _ _); [|done]. cbn [files tick].
  apply map_Forall_insert_2; [by eapply point_data_numeric|done].
Qed.

Lemma readable_from_disk (P : DataFrame -> Prop) (d : Disk)
    (paths : list string) :
  map_Forall (fun _ df => P df) (files d) ->
  Forall P (readable (read_from d) paths).
Proof.
  intros Hd. induction paths as [|p ps IH]; [constructor|].
  unfold readable. simpl. unfold read_from at 1.
  destruct (files d !! p) as [df|] eqn:E; [|exact IH].
  constructor; [by eapply Hd|exact IH].
Qed.

(** X5.  The tables the traffic parser writes never stop the
    transformation: when [pd.to_numeric] makes numbers or NaN, and the
    files already on the disk hold numbers or nulls in the metric columns,
    the transformation of the paths an extraction returns, read from the
    disk it leaves, returns its triple. *)
Theorem X5_extraction_feeds_transformation (points : list string) (d : Disk) :
  map_Forall (fun _ df => numeric_frame df) (files d) ->
  let out := extract points d in
  exists combined averages estimate,
    transform_traffic_data (read_from out.2) out.1
    = Ok (combined, averages, estimate).
Proof using coerce_numeric.
  intros Hd. cbv zeta.
  pose proof (extract_files_numeric points d Hd) as Hfiles.
  rewrite transform_by_frames.
  destruct (transform_frames_total
              (readable (read_from (extract points d).2) (extract points d).1))
    as [[[combined averages] estimate] Hout].
  { by apply readable_from_disk. }
  by exists combined, averages, estimate.
Qed.

End ExtractionFacts.

Lemma sample_coerce_numeric (v : value) :
  exists o, numeric_cell (Samples.coerce v) = Ok o.
Proof.
  destruct v as [| | | |s| |]; simpl; try by eexists.
  unfold Samples.coerce.
  repeat match goal with
         | |- context [if ?b then _ else _] => destruct b
         end; by eexists.
Qed.

Lemma sample_point_data :
  exists df,
    point_data Samples.fromstring Samples.float_of_text Samples.coerce "key"
      Samples.fetch Samples.point = Some df
    /\ point_data Samples.fromstring Samples.float_of_text Samples.coerce
         "key" Samples.fetch "0,0" = None.
Proof. eexists. split; vm_compute; reflexivity. Qed.

Lemma X3_point_without_data_skipped_witness :
  extract_traffic_data_for_areas Samples.fromstring Samples.float_of_text
    Samples.coerce "key" "traffic_data" Samples.fetch Samples.clock
    (fun _ _ => true) ["0,0"; Samples.point] Samples.empty_disk
  = extract_traffic_data_for_areas Samples.fromstring Samples.float_of_text
      Samples.coerce "key" "traffic_data" Samples.fetch Samples.clock
      (fun _ _ => true) [Samples.point] Samples.empty_disk.
Proof.
  apply (X3_point_without_data_skipped Samples.fromstring
           Samples.float_of_text Samples.coerce "key" "traffic_data"
           Samples.fetch Samples.clock (fun _ _ => true) [] [Samples.point]
           "0,0" Samples.empty_disk).
  vm_compute. reflexivity.
Defined.

Lemma X4_failed_save_still_listed_witness :
  (extract_traffic_data_for_areas Samples.fromstring Samples.float_of_text
     Samples.coerce "key" "traffic_data" Samples.fetch Samples.clock
     (fun _ _ => false) [Samples.point] Samples.empty_disk).1
  = ["traffic_data/traffic_data_10_79187-106_68831_20240101_000000.parquet"]
  /\ files (extract_traffic_data_for_areas Samples.fromstring
              Samples.float_of_text Samples.coerce "key" "traffic_data"
              Samples.fetch Samples.clock (fun _ _ => false) [Samples.point]
              Samples.empty_disk).2 = ∅.
Proof.
  destruct sample_point_data as (df & Hdf & _).
  destruct (X4_failed_save_still_listed Samples.fromstring
              Samples.float_of_text Samples.coerce "key" "traffic_data"
              Samples.fetch Samples.clock (fun _ _ => false) Samples.point df
              Samples.empty_disk Hdf eq_refl) as (Hp & Hf & _).
  split; [exact Hp | exact Hf].
Defined.

Lemma X5_extraction_feeds_transformation_witness :
  let out :=
    extract_traffic_data_for_areas Samples.fromstring Samples.float_of_text
      Samples.coerce "key" "traffic_data" Samples.fetch Samples.clock
      (fun _ _ => true) [Samples.point; "0,0"] Samples.empty_disk in
  exists combined averages estimate,
    transform_traffic_data (read_from out.2) out.1
    = Ok (combined, averages, estimate).
Proof.
  apply (X5_extraction_feeds_transformation Samples.fromstring
           Samples.float_of_text Samples.coerce "key" "traffic_data"
           Samples.fetch Samples.clock (fun _ _ => true) sample_coerce_numeric).
  apply map_Forall_empty.
Defined.

(** ** The shape of what the parsers return *)

(** X6.  Each parser returns either the empty table or a table of exactly
    one row under its fixed columns, nine for a traffic segment and
    thirteen for a weather sample. *)
Theorem X6_one_row_or_none
    (ET_fromstring : string -> result Element)
    (py_float : string -> result float) (coerce_object : value -> value)
    (json_loads : string -> result json) :
  (forall xml_data,
      let df := parse_traffic_response_to_dataframe ET_fromstring py_float
                  coerce_object xml_data in
      df = empty_frame
      \/ (columns df = traffic_columns /\ length (columns df) = 9%nat
          /\ length (rows df) = 1%nat /\ df_empty df = false))
  /\ (forall now json_data location_coords,
        let df := parse_weather_response_to_dataframe coerce_object json_loads
                    now json_data location_coords in
        df = empty_frame
        \/ (columns df = weather_columns /\ length (columns df) = 13%nat
            /\ length (rows df) = 1%nat /\ df_empty df = false)).
Proof.
  split.
  - intros xml_data. cbv zeta. rewrite parse_traffic_cases.
    destruct (String.eqb xml_data ""); [by left|].
    destruct (ET_fromstring xml_data) as [root|]; [|by left].
    destruct (root_coordinates py_float root); [by right|by left].
  - intros now json_data location_coords. cbv zeta.
    unfold parse_weather_response_to_dataframe, parse_weather_body.
    destruct (String.eqb json_data ""); [by left|].
    destruct (json_loads json_data) as [data|]; [|by left].
    cbn [mbind result_bind].
    destruct (weather_record now data location_coords) as [record|] eqn:Hrec;
      [|by left].
    cbn [mbind result_bind]. rewrite (weather_frame _ _ _ _ _ Hrec).
    by right.
Qed.

(** ** The road closure flag *)

(** X7.  In a record the traffic parser returns, [roadClosure] is True
    exactly when the document has the tag and the text of its first
    occurrence reads "true" in any mix of upper and lower case; any other
    text, an empty tag and a missing tag all give False. *)
Theorem X7_road_closure_flag
    (ET_fromstring : string -> result Element)
    (py_float : string -> result float) (coerce_object : value -> value)
    (xml_data : string) (r : gmap string value) :
  r ∈ rows (parse_traffic_response_to_dataframe ET_fromstring py_float
              coerce_object xml_data) ->
  exists root b,
    ET_fromstring xml_data = Ok root
    /\ cell r "roadClosure" = VBool b
    /\ (b = true <->
        exists element s,
          find "roadClosure" root = Some element
          /\ text element = Some s /\ lower s = "true").
Proof.
  intros Hr.
  destruct (traffic_record_inv _ _ _ _ _ Hr) as (root & cs & _ & Hroot & _ & ->).
  destruct (traffic_row_cells coerce_object root cs)
    as (_ & _ & _ & _ & _ & _ & Hrc & _).
  exists root, (str_lower_is_true (text_or_none (find "roadClosure" root))).
  split; [done|]. split; [done|].
  unfold text_or_none.
  destruct (find "roadClosure" root) as [element|]; simpl.
  - destruct (text element) as [s|] eqn:Hs; simpl.
    + rewrite String.eqb_eq. split; [by exists element, s|].
      intros (el & s' & Hel & Hs' & Hl). injection Hel as <-.
      rewrite Hs in Hs'. by injection Hs' as <-.
    + split; [done|]. intros (el & s' & Hel & Hs' & _).
      injection Hel as <-. rewrite Hs in Hs'. discriminate Hs'.
  - split; [done|]. intros (el & s' & Hel & _). discriminate Hel.
Qed.

Lemma X7_road_closure_flag_witness :
  exists r root b,
    r ∈ rows (parse_traffic_response_to_dataframe Samples.fromstring
                Samples.float_of_text Samples.coerce Samples.segment_xml)
    /\ Samples.fromstring Samples.segment_xml = Ok root
    /\ cell r "roadClosure" = VBool b /\ b = true
    /\ lower "True" = "true".
Proof.
  destruct (traffic_record_exists Samples.fromstring Samples.float_of_text
              Samples.coerce Samples.segment_xml Samples.segment_root)
    as [cs Hparse].
  { intros H. vm_compute in H. discriminate H. }
  { vm_compute. reflexivity. }
  { exact sample_degrees_readable. }
  assert (traffic_row Samples.coerce Samples.segment_root cs
          ∈ rows (parse_traffic_response_to_dataframe Samples.fromstring
                    Samples.float_of_text Samples.coerce Samples.segment_xml))
    as Hin by (rewrite Hparse; apply list_elem_of_here).
  destruct (X7_road_closure_flag _ _ _ _ _ Hin) as (root & b & Hroot & Hb & Hiff).
  exists (traffic_row Samples.coerce Samples.segment_root cs), root, b.
  split; [exact Hin|]. split; [exact Hroot|]. split; [exact Hb|].
  split; [|reflexivity].
  apply Hiff.
  assert (root = Samples.segment_root) as ->.
  { assert (Samples.fromstring Samples.segment_xml = Ok Samples.segment_root)
      as E by (vm_compute; reflexivity).
    rewrite E in Hroot. by injection Hroot as <-. }
  exists (Samples.leaf "roadClosure" "True"), "True".
  repeat split; vm_compute; reflexivity.
Defined.

(** ** A weather response with a section of the wrong kind *)

Lemma nested_field_bad (members : list (string * json)) (outer inner : string)
    (v : json) :
  members_lookup outer members = Some v ->
  (forall section, v <> JObj section) ->
  nested_field (JObj members) outer inner = Raise AttributeError.
Proof.
  intros Hl Hv. unfold nested_field, json_get_default, json_get.
  cbn [mbind result_bind]. rewrite Hl. simpl.
  destruct v; try done. by destruct (Hv members0).
Qed.

Lemma weather_field_bad (members : list (string * json)) (inner : string)
    (w : json) :
  members_lookup "weather" members = Some w ->
  (forall first rest, w <> JArr (JObj first :: rest)) ->
  exists e, weather_field (JObj members) inner = Raise e.
Proof.
  intros Hl Hw. unfold weather_field, json_get_default, json_get.
  cbn [mbind result_bind]. rewrite Hl. simpl.
  destruct w as [| | | |s|items|]; simpl; try by eexists.
  - destruct s; simpl; by eexists.
  - destruct items as [|first rest]; simpl; [by eexists|].
    destruct first; simpl; try by eexists. by destruct (Hw members0 rest).
Qed.

Ltac step_record :=
  match goal with
  | H : forall inner, nested_field ?d ?o inner = Raise _
    |- exists e, (nested_field ?d ?o ?i ≫= _) = Raise e =>
      rewrite (H i); by eexists
  | H : forall inner, exists e, weather_field ?d inner = Raise e
    |- exists e, (weather_field ?d ?i ≫= _) = Raise e =>
      destruct (H i) as [? ->]; by eexists
  | |- exists e, (?m ≫= _) = Raise e =>
      destruct m; [cbn [mbind result_bind] | by eexists]
  end.

Lemma weather_record_bad_section (now : string)
    (members : list (string * json)) (location_coords : gmap string value)
    (outer : string) :
  outer ∈ ["main"; "wind"; "clouds"] ->
  (forall inner,
      nested_field (JObj members) outer inner = Raise AttributeError) ->
  exists e, weather_record now (JObj members) location_coords = Raise e.
Proof.
  intros Hin Hbad. unfold weather_record.
  repeat (apply elem_of_cons in Hin as [->|Hin]);
    [ | | | by apply elem_of_nil in Hin ]; repeat step_record.
Qed.

Lemma weather_record_bad_weather (now : string)
    (members : list (string * json)) (location_coords : gmap string value) :
  (forall inner, exists e, weather_field (JObj members) inner = Raise e) ->
  exists e, weather_record now (JObj members) location_coords = Raise e.
Proof. intros Hbad. unfold weather_record. repeat step_record. Qed.

(** X8.  A weather response whose [main], [wind] or [clouds] member is
    there but is no object (null, say), or whose [weather] member is there
    but is not a list starting with an object (the empty list, say), makes
    the parser return the empty table: the whole sample is lost, not the
    one field. *)
Theorem X8_wrong_section_discards_sample
    (coerce_object : value -> value) (json_loads : string -> result json)
    (now json_data : string) (location_coords : gmap string value)
    (members : list (string * json)) :
  json_loads json_data = Ok (JObj members) ->
  (exists outer v,
      outer ∈ ["main"; "wind"; "clouds"]
      /\ members_lookup outer members = Some v
      /\ forall section, v <> JObj section)
  \/ (exists w,
        members_lookup "weather" members = Some w
        /\ forall first rest, w <> JArr (JObj first :: rest)) ->
  parse_weather_response_to_dataframe coerce_object json_loads now json_data
    location_coords = empty_frame.
Proof.
  intros Hdata Hbad.
  unfold parse_weather_response_to_dataframe, parse_weather_body.
  destruct (String.eqb json_data ""); [done|]. rewrite Hdata.
  cbn [mbind result_bind].
  assert (exists e, weather_record now (JObj members) location_coords
                    = Raise e) as [e ->]; [|done].
  destruct Hbad as [(outer & v & Hin & Hl & Hv)|(w & Hl & Hw)].
  - apply (weather_record_bad_section _ _ _ outer Hin).
    intros inner. by eapply nested_field_bad.
  - apply weather_record_bad_weather. intros inner.
    by eapply weather_field_bad.
Qed.

Lemma X8_wrong_section_discards_sample_witness :
  parse_weather_response_to_dataframe Samples.coerce Samples.loads
    Samples.midnight Samples.no_weather_json Samples.location = empty_frame.
Proof.
  apply (X8_wrong_section_discards_sample Samples.coerce Samples.loads
           Samples.midnight Samples.no_weather_json Samples.location
           [("weather", JArr [])]).
  - vm_compute. reflexivity.
  - right. exists (JArr []). split; [reflexivity|]. discriminate.
Defined.

(** ** Extracting a weather sample *)

Section WeatherExtractionFacts.

Variable coerce_object : value -> value.
Variable json_loads : string -> result json.
Variable WEATHER_API_KEY : option string.
Variable WEATHER_API_BASE_URL : string.
Variable OUTPUT_FOLDER : string.
Variable prepare_url : string -> list (string * value) -> string.
Variable fetch_data_from_api : string -> option string.
Variable strftime_now : nat -> string.
Variable utc_isoformat : nat -> string.
Variable write_ok : string -> DataFrame -> bool.

#[local] Abbreviation extract_weather :=
  (extract_weather_data coerce_object json_loads WEATHER_API_KEY
     WEATHER_API_BASE_URL OUTPUT_FOLDER prepare_url fetch_data_from_api
     strftime_now utc_isoformat write_ok).

(** X9.  Without a latitude or a longitude, or without an API key in the
    environment, the weather extraction returns None and leaves the disk
    and the clock alone. *)
Theorem X9_nothing_to_extract (location_coords : gmap string value) (d : Disk) :
  cell location_coords "lat" = VNone
  \/ cell location_coords "lon" = VNone
  \/ WEATHER_API_KEY = None \/ WEATHER_API_KEY = Some "" ->
  extract_weather location_coords d = (Ok None, d).
Proof.
  unfold extract_weather_data.
  intros [Hlat | [Hlon | [Hkey | Hkey]]].
  - by rewrite Hlat.
  - rewrite Hlon. by destruct (cell location_coords "lat").
  - rewrite Hkey.
    by destruct (cell location_coords "lat"), (cell location_coords "lon").
  - rewrite Hkey.
    by destruct (cell location_coords "lat"), (cell location_coords "lon").
Qed.

(** The call gets as far as building the file path. *)
Lemma extract_weather_reaches_path (location_coords : gmap string value)
    (d : Disk) (key json_data api_url : string) :
  cell location_coords "lat" <> VNone ->
  cell location_coords "lon" <> VNone ->
  WEATHER_API_KEY = Some key -> key <> "" ->
  construct_weather_api_url prepare_url location_coords key
    WEATHER_API_BASE_URL = Ok api_url ->
  fetch_data_from_api api_url = Some json_data -> json_data <> "" ->
  let df := parse_weather_response_to_dataframe coerce_object json_loads
              (utc_isoformat (clock_reads d)) json_data location_coords in
  df_empty df = false ->
  extract_weather location_coords d
  = match construct_weather_file_path location_coords OUTPUT_FOLDER "parquet"
            (strftime_now (S (clock_reads d))) with
    | Raise e => (Raise e, tick (tick d))
    | Ok file_path =>
        match save_weather_to_parquet write_ok df file_path (tick (tick d)) with
        | (Raise e, d') => (Raise e, d')
        | (Ok _, d') => (Ok (Some file_path), d')
        end
    end.
Proof.
  intros Hlat Hlon Hkey Hne Hurl Hfetch Hjson df Hdf.
  assert (exists data, json_loads json_data = Ok data) as [data Hdata].
  { unfold df, parse_weather_response_to_dataframe, parse_weather_body in Hdf.
    destruct (json_loads json_data) as [data|e]; [by exists data|].
    by destruct (String.eqb json_data ""). }
  unfold extract_weather_data. rewrite Hkey, Hurl, Hfetch, Hdata. fold df.
  rewrite Hdf.
  destruct (cell location_coords "lat"); try done;
    destruct (cell location_coords "lon"); try done;
    destruct key; try done; destruct json_data; done.
Qed.

(** X10.  With coordinates given as floats, as in the example of the
    docstring, a sample that was fetched and parsed is never saved:
    building the file name calls [replace] on the float, the
    AttributeError is raised again to the caller, and no file is
    written. *)
Theorem X10_float_coordinates_raise (location_coords : gmap string value)
    (d : Disk) (key json_data : string) (lat lon : float) :
  location_coords !! "lat" = Some (VFloat lat) ->
  location_coords !! "lon" = Some (VFloat lon) ->
  WEATHER_API_KEY = Some key -> key <> "" ->
  fetch_data_from_api
    (prepare_url WEATHER_API_BASE_URL
       [("lat", VFloat lat); ("lon", VFloat lon); ("appid", VStr key);
        ("units", VStr "metric")]) = Some json_data ->
  json_data <> "" ->
  df_empty (parse_weather_response_to_dataframe coerce_object json_loads
              (utc_isoformat (clock_reads d)) json_data location_coords)
  = false ->
  extract_weather location_coords d = (Raise AttributeError, tick (tick d))
  /\ files (extract_weather location_coords d).2 = files d.
Proof.
  intros Hlat Hlon Hkey Hne Hfetch Hjson Hdf.
  assert (cell location_coords "lat" = VFloat lat) as Hclat
    by (unfold cell; by rewrite Hlat).
  assert (cell location_coords "lon" = VFloat lon) as Hclon
    by (unfold cell; by rewrite Hlon).
  rewrite (extract_weather_reaches_path location_coords d key json_data
             (prepare_url WEATHER_API_BASE_URL
                [("lat", VFloat lat); ("lon", VFloat lon); ("appid", VStr key);
                 ("units", VStr "metric")])); try done.
  - unfold construct_weather_file_path, sanitized_coordinate.
    rewrite Hlat. done.
  - by rewrite Hclat.
  - by rewrite Hclon.
  - unfold construct_weather_api_url. by rewrite Hclat, Hclon.
Qed.

(** X11.  With coordinates given as strings, a sample that was fetched
    and parsed is saved under a name built from the coordinates, with
    dots turned to underscores and minus signs spelled out, and the path
    is returned; when the file cannot be written the error is raised to
    the caller and no file is written. *)
Theorem X11_string_coordinates_saved (location_coords : gmap string value)
    (d : Disk) (key json_data lat lon : string) :
  location_coords !! "lat" = Some (VStr lat) ->
  location_coords !! "lon" = Some (VStr lon) ->
  WEATHER_API_KEY = Some key -> key <> "" ->
  fetch_data_from_api
    (prepare_url WEATHER_API_BASE_URL
       [("lat", VStr lat); ("lon", VStr lon); ("appid", VStr key);
        ("units", VStr "metric")]) = Some json_data ->
  json_data <> "" ->
  let df := parse_weather_response_to_dataframe coerce_object json_loads
              (utc_isoformat (clock_reads d)) json_data location_coords in
  df_empty df = false ->
  let file_path :=
    os_path_join OUTPUT_FOLDER
      ("weather_data_lat" +:+ str_replace "-" "minus" (str_replace "." "_" lat)
       +:+ "_lon" +:+ str_replace "-" "minus" (str_replace "." "_" lon)
       +:+ "_" +:+ strftime_now (S (clock_reads d)) +:+ ".parquet") in
  let out := extract_weather location_coords d in
  (write_ok file_path df = true ->
   out.1 = Ok (Some file_path) /\ files out.2 !! file_path = Some df
   /\ forall other, other <> file_path ->
        files out.2 !! other = files d !! other)
  /\ (write_ok file_path df = false ->
      out.1 = Raise IOError /\ files out.2 = files d).
Proof.
  intros Hlat Hlon Hkey Hne Hfetch Hjson df Hdf file_path out.
  assert (cell location_coords "lat" = VStr lat) as Hclat
    by (unfold cell; by rewrite Hlat).
  assert (cell location_coords "lon" = VStr lon) as Hclon
    by (unfold cell; by rewrite Hlon).
  assert (out
          = match save_weather_to_parquet write_ok df file_path (tick (tick d))
            with
            | (Raise e, d') => (Raise e, d')
            | (Ok _, d') => (Ok (Some file_path), d')
            end) as ->.
  { unfold out.
    rewrite (extract_weather_reaches_path location_coords d key json_data
               (prepare_url WEATHER_API_BASE_URL
                  [("lat", VStr lat); ("lon", VStr lon); ("appid", VStr key);
                   ("units", VStr "metric")])); try done.
    - unfold construct_weather_file_path, sanitized_coordinate.
      rewrite Hlat, Hlon. done.
    - by rewrite Hclat.
    - by rewrite Hclon.
    - unfold construct_weather_api_url. by rewrite Hclat, Hclon. }
  unfold save_weather_to_parquet. split; intros Hw; rewrite Hw; cbn.
  - split; [done|]. split; [by rewrite lookup_insert_eq|].
    intros other Hother. by rewrite lookup_insert_ne.
  - done.
Qed.

End WeatherExtractionFacts.

Lemma X9_nothing_to_extract_witness :
  extract_weather_data Samples.coerce Samples.loads (Some "key")
    "https://api.exampleweather.com/v1/current" "source_data/weather"
    Samples.prepare Samples.weather_fetch Samples.clock Samples.clock
    (fun _ _ => true) {[ "lon" := VFloat (F64.of_Z 106) ]} Samples.empty_disk
  = (Ok None, Samples.empty_disk).
Proof.
  apply X9_nothing_to_extract. left. reflexivity.
Defined.

Lemma sample_weather_not_empty (location_coords : gmap string value) :
  df_empty (parse_weather_response_to_dataframe Samples.coerce Samples.loads
              (Samples.clock 0) Samples.weather_json location_coords) = false.
Proof.
  rewrite (weather_one_record Samples.coerce Samples.loads (Samples.clock 0)
             Samples.weather_json
             [("main", JObj [("humidity", JInt 70)]); ("name", JStr "Saigon")]).
  - reflexivity.
  - intros H. vm_compute in H. discriminate H.
  - vm_compute. reflexivity.
  - exact sample_weather_shape.
Qed.

Lemma X10_float_coordinates_raise_witness :
  extract_weather_data Samples.coerce Samples.loads (Some "key")
    "https://api.exampleweather.com/v1/current" "source_data/weather"
    Samples.prepare Samples.weather_fetch Samples.clock Samples.clock
    (fun _ _ => true) Samples.location Samples.empty_disk
  = (Raise AttributeError, tick (tick Samples.empty_disk)).
Proof.
  refine (proj1 (X10_float_coordinates_raise Samples.coerce Samples.loads
                   (Some "key") "https://api.exampleweather.com/v1/current"
                   "source_data/weather" Samples.prepare Samples.weather_fetch
                   Samples.clock Samples.clock (fun _ _ => true)
                   Samples.location Samples.empty_disk "key"
                   Samples.weather_json (F64.dec 1079187 5)
                   (F64.dec 10668831 5) _ _ eq_refl _ eq_refl _ _)).
  - vm_compute. reflexivity.
  - vm_compute. reflexivity.
  - discriminate.
  - intros H. vm_compute in H. discriminate H.
  - apply sample_weather_not_empty.
Defined.

Lemma X11_string_coordinates_saved_witness :
  (extract_weather_data Samples.coerce Samples.loads (Some "key")
     "https://api.exampleweather.com/v1/current" "source_data/weather"
     Samples.prepare Samples.weather_fetch Samples.clock Samples.clock
     (fun _ _ => true) Samples.text_location Samples.empty_disk).1
  = Ok (Some ("source_data/weather/weather_data_lat10_79187"
              +:+ "_lonminus106_68831_20240101_000000.parquet")).
Proof.
  refine (proj1 (proj1 (X11_string_coordinates_saved Samples.coerce
                          Samples.loads (Some "key")
                          "https://api.exampleweather.com/v1/current"
                          "source_data/weather" Samples.prepare
                          Samples.weather_fetch Samples.clock Samples.clock
                          (fun _ _ => true) Samples.text_location
                          Samples.empty_disk "key" Samples.weather_json
                          "10.79187" "-106.68831" _ _ eq_refl _ eq_refl _ _)
                   eq_refl)).
  - vm_compute. reflexivity.
  - vm_compute. reflexivity.
  - discriminate.
  - intros H. vm_compute in H. discriminate H.
  - apply sample_weather_not_empty.
Defined.

(** ** When there is no speed to estimate from *)

Lemma numeric_cells_all_null (s : list value) :
  Forall (fun v => is_null v = true) s -> numeric_cells s = Ok [].
Proof.
  induction 1 as [|v s Hv _ IH]; [done|]. simpl. rewrite IH.
  destruct v as [| | |f| | |]; try discriminate Hv; [done|].
  simpl in *. by rewrite Hv.
Qed.

Lemma unit_key_absent (df : DataFrame) (avgs : gmap string (option float)) :
  compute_averages df = Ok avgs ->
  "currentSpeed" ∉ columns df ->
  avgs !! "average_currentSpeed_kmph" = None.
Proof.
  intros Ha Hno. destruct (compute_averages_entries _ _ Ha) as [_ Hd].
  apply not_elem_of_dom. rewrite Hd. rewrite elem_of_list_to_set.
  intros (c & Hk & Hc)%list_elem_of_fmap.
  destruct (decide (c = "currentSpeed")) as [->|Hne].
  - unfold entry_key in Hk. rewrite bool_decide_eq_false_2 in Hk by done.
    vm_compute in Hk. discriminate Hk.
  - eapply (keys_separate c "currentSpeed" "average_currentSpeed_kmph");
      [done| |done| |].
    + apply (bool_decide_unpack _). vm_compute. exact I.
    + rewrite Hk. apply entry_key_keys.
    + apply (bool_decide_unpack _). vm_compute. exact I.
Qed.

(** X12.  When the combined table has no [currentSpeed] column, the
    null entry goes under the bare key [average_currentSpeed], the key
    the estimate reads is not in the mapping, and the estimate is null;
    when the column is there but null in every row, its average is NaN
    and the estimate is null as well. *)
Theorem X12_no_speed_no_estimate
    (read_parquet : string -> result DataFrame) (file_paths : list string)
    df avgs est :
  readable read_parquet file_paths <> [] ->
  transform_traffic_data read_parquet file_paths = Ok (df, avgs, est) ->
  ("currentSpeed" ∉ columns df ->
     avgs !! "average_currentSpeed" = Some None
     /\ avgs !! "average_currentSpeed_kmph" = None
     /\ est = None)
  /\ ("currentSpeed" ∈ columns df ->
      Forall (fun r => is_null (cell r "currentSpeed") = true) (rows df) ->
      avgs !! "average_currentSpeed_kmph" = Some (Some F64.nan)
      /\ est = None).
Proof.
  intros Hne H. rewrite transform_by_frames in H.
  pose proof (transform_frames_estimate _ _ _ _ H) as Hest.
  destruct (transform_frames_averages _ _ _ _ Hne H) as [_ Ha].
  destruct (compute_averages_entries _ _ Ha) as [He _].
  destruct (He "currentSpeed") as [Hp Hn].
  { apply (bool_decide_unpack _). vm_compute. exact I. }
  split.
  - intros Hno. split; [by apply Hn|].
    pose proof (unit_key_absent _ _ Ha Hno) as Hk. split; [done|].
    unfold dict_get in Hest. rewrite Hk in Hest. by injection Hest as <-.
  - intros Hin Hnull. destruct (Hp Hin) as (m & Hm & Hl).
    assert (m = F64.nan) as ->.
    { unfold Series_mean in Hm. rewrite numeric_cells_all_null in Hm.
      - injection Hm as <-. vm_compute. reflexivity.
      - unfold column. by apply Forall_fmap. }
    change (avg_key "currentSpeed") with "average_currentSpeed_kmph" in Hl.
    split; [done|]. unfold dict_get in Hest. rewrite Hl in Hest.
    by injection Hest as <-.
Qed.

Lemma X12_no_speed_no_estimate_witness :
  exists df avgs est,
    transform_traffic_data Samples.no_speed_file ["p1.parquet"]
    = Ok (df, avgs, est)
    /\ avgs !! "average_currentSpeed" = Some None
    /\ avgs !! "average_currentSpeed_kmph" = None
    /\ est = None.
Proof.
  pose proof sample_no_speed_result as Hs.
  destruct (transform_traffic_data Samples.no_speed_file ["p1.parquet"])
    as [[[df avgs] est]|e] eqn:H; [|destruct Hs].
  exists df, avgs, est. split; [reflexivity|].
  refine (proj1 (X12_no_speed_no_estimate Samples.no_speed_file
                   ["p1.parquet"] df avgs est _ H) _).
  - vm_compute. discriminate.
  - rewrite transform_by_frames in H.
    apply transform_frames_averages in H as [-> _];
      [|vm_compute; discriminate].
    apply (bool_decide_unpack _). vm_compute. exact I.
Defined.

(** ** The connection to the store *)

(** X13.  The loader opens at most one connection, and closes the
    connection it opened on every way out: after a load that worked and
    after a statement that failed the trace shows the connect followed by
    its close, after a connect that failed the connect alone, and for an
    empty table nothing; the statement is run only on an open
    connection. *)
Theorem X13_connection_closed (df : DataFrame) (db_path table_name : string)
    (w : World) :
  let out := load_transformed_data_to_duckdb df db_path table_name w in
  exists printed,
    trace out.2 = trace w ++ printed
    /\ List.filter is_connection_event printed
       = (if df_empty df then []
          else if connect_ok w db_path then [Connect db_path; Close db_path]
          else [Connect db_path])
    /\ (In (Execute db_path table_name) printed <->
        df_empty df = false /\ connect_ok w db_path = true).
Proof.
  cbv zeta. destruct (df_empty df) eqn:He.
  - rewrite load_empty by done. eexists. split; [done|]. split; [done|].
    simpl. split; [intros [?|[?|[]]]; discriminate | by intros [? _]].
  - destruct (connect_ok w db_path) eqn:Hc.
    + destruct (execute_ok w db_path table_name df) eqn:Hx.
      * rewrite load_success by done. eexists. split; [done|].
        split; [done|]. simpl. split; [done|]. tauto.
      * rewrite load_execute_fails by done. eexists. split; [done|].
        split; [done|]. simpl. split; [done|]. tauto.
    + rewrite load_connect_fails by done. eexists. split; [done|].
      split; [done|]. simpl.
      split; [intros [?|[?|[?|[?|[]]]]]; discriminate | by intros [_ ?]].
Qed.

(** X14.  Whatever the outcome, a load touches nothing but the one table
    of the one database: every other database and every other table are
    as they were.  Loading the same table a second time changes nothing
    further. *)
Theorem X14_load_is_local_and_idempotent (df : DataFrame)
    (db_path table_name : string) (w : World) :
  let out := load_transformed_data_to_duckdb df db_path table_name w in
  (forall path, path <> db_path -> databases out.2 !! path = databases w !! path)
  /\ (forall other, other <> table_name ->
        tables_at db_path out.2 !! other = tables_at db_path w !! other)
  /\ databases (load_transformed_data_to_duckdb df db_path table_name out.2).2
     = databases out.2.
Proof.
  cbv zeta. destruct (df_empty df) eqn:He.
  - rewrite !load_empty by done. cbn [snd databases]. by repeat split.
  - destruct (connect_ok w db_path) eqn:Hc.
    + destruct (execute_ok w db_path table_name df) eqn:Hx.
      * rewrite load_success by done. cbn [snd]. rewrite tables_at_insert.
        split; [intros; cbn [databases]; by rewrite lookup_insert_ne|].
        split; [intros; by rewrite lookup_insert_ne|].
        rewrite load_success by done. cbn [snd databases].
        rewrite tables_at_insert. by rewrite insert_insert_eq, insert_insert_eq.
      * rewrite load_execute_fails by done. cbn [snd].
        rewrite tables_at_insert.
        split; [intros; cbn [databases]; by rewrite lookup_insert_ne|].
        split; [done|].
        rewrite load_execute_fails by done. cbn [snd databases].
        rewrite tables_at_insert. by rewrite insert_insert_eq.
    + rewrite load_connect_fails by done. cbn [snd databases].
      split; [done|]. split; [done|]. by rewrite load_connect_fails.
Qed.

(** ** The driver *)

(** X15.  The driver raises ValueError before doing anything when the
    API key is missing or empty.  With a key, when no points are
    configured, when the extraction returns no paths, or when the
    transformation returns an empty table, it returns normally without
    opening a connection or running a statement, and every database is as
    it was. *)
Theorem X15_driver_guards
    (read_parquet : string -> result DataFrame)
    (extract : list string -> list string) (script_dir : string)
    (CONFIG : Config) (w : World) :
  (TOMTOM_API_KEY CONFIG = None \/ TOMTOM_API_KEY CONFIG = Some "" ->
   main read_parquet extract script_dir CONFIG w
   = (Raise ValueError, emit (Print StartingPipeline) w))
  /\ (forall key,
        TOMTOM_API_KEY CONFIG = Some key -> key <> "" ->
        ROUTE_POINTS_EXAMPLE CONFIG = []
        \/ extract (ROUTE_POINTS_EXAMPLE CONFIG) = []
        \/ (exists df avgs est,
              transform_traffic_data read_parquet
                (extract (ROUTE_POINTS_EXAMPLE CONFIG)) = Ok (df, avgs, est)
              /\ df_empty df = true) ->
        let run := main read_parquet extract script_dir CONFIG w in
        run.1 = Ok tt
        /\ databases run.2 = databases w
        /\ exists printed,
             trace run.2 = trace w ++ printed
             /\ Forall (fun ev => is_attempt ev = false) printed).
Proof.
  split.
  - unfold main. by intros [->| ->].
  - intros key Hkey Hne Hcase. cbv zeta. unfold main. rewrite Hkey.
    destruct key as [|c key]; [done|].
    destruct (ROUTE_POINTS_EXAMPLE CONFIG) as [|point points] eqn:Hpoints.
    { split; [done|]. split; [done|]. eexists. unfold emit. cbn [snd trace].
      rewrite <- app_assoc. split; [done|]. by repeat constructor. }
    destruct (extract (point :: points)) as [|path paths] eqn:Hpaths.
    { split; [done|]. split; [done|]. eexists. unfold emit. cbn [snd trace].
      rewrite <- app_assoc. split; [done|]. by repeat constructor. }
    destruct Hcase as [?|[?|(df & avgs & est & Ht & He)]]; [done|done|].
    rewrite Ht, He. split; [done|]. split; [done|]. eexists.
    unfold emit. cbn [snd trace]. repeat rewrite <- app_assoc.
    split; [done|]. by repeat constructor.
Qed.

Lemma X15_driver_guards_witness :
  main Samples.one_file (fun _ => []) "/app" (mkConfig None []) working_store
  = (Raise ValueError, emit (Print StartingPipeline) working_store)
  /\ (main Samples.one_file (fun _ => []) "/app" Samples.config
        working_store).1 = Ok tt
  /\ databases (main Samples.one_file (fun _ => []) "/app" Samples.config
                  working_store).2 = ∅.
Proof.
  destruct (X15_driver_guards Samples.one_file (fun _ => []) "/app"
              (mkConfig None []) working_store) as [Hraise _].
  split; [exact (Hraise (or_introl eq_refl))|].
  destruct (X15_driver_guards Samples.one_file (fun _ => []) "/app"
              Samples.config working_store) as [_ Hskip].
  destruct (Hskip "key" eq_refl ltac:(discriminate) (or_intror (or_introl eq_refl)))
    as (Hok & Hdb & _).
  split; [exact Hok | exact Hdb].
Defined.

(** ** What an extraction writes *)

Lemma parsed_frame_one_row
    (ET_fromstring : string -> result Element)
    (py_float : string -> result float) (coerce_object : value -> value)
    (xml_data : string) :
  let df := parse_traffic_response_to_dataframe ET_fromstring py_float
              coerce_object xml_data in
  df_empty df = false ->
  columns df = traffic_columns /\ length (rows df) = 1%nat.
Proof.
  cbv zeta. rewrite parse_traffic_cases.
  destruct (String.eqb xml_data ""); [done|].
  destruct (ET_fromstring xml_data) as [root|]; [|done].
  by destruct (root_coordinates py_float root).
Qed.

(** X16.  Every file on the disk after an extraction either was there
    before with the same content, or is a batch file of the run: a table
    of one row under the nine traffic columns, stored under one of the
    paths returned. *)
Theorem X16_batch_files_hold_one_record
    (ET_fromstring : string -> result Element)
    (py_float : string -> result float) (coerce_object : value -> value)
    (api_key folder : string) (fetch_data_from_api : string -> option string)
    (strftime_now : nat -> string) (write_ok : string -> DataFrame -> bool)
    (points : list string) :
  forall (d : Disk) (path : string) (df : DataFrame),
    let out := extract_traffic_data_for_areas ET_fromstring py_float
                 coerce_object api_key folder fetch_data_from_api strftime_now
                 write_ok points d in
    files out.2 !! path = Some df ->
    files d !! path = Some df
    \/ (columns df = traffic_columns /\ length (rows df) = 1%nat
        /\ path ∈ out.1).
Proof.
  induction points as [|p ps IH]; intros d path df; cbv zeta.
  - intros H. by left.
  - rewrite extract_cons.
    destruct (point_data _ _ _ _ _ p) as [dfp|] eqn:Hp; [|apply IH].
    cbn [fst snd]. intros H. apply IH in H as [H|(Hc & Hr & Hin)].
    + unfold save_to_parquet in H.
      destruct (write_ok _ dfp); [|by left]. cbn [files tick] in H.
      apply lookup_insert_Some in H as [[<- <-]|[_ H]]; [|by left].
      right. unfold point_data in Hp.
      destruct (fetch_data_from_api _) as [xml|]; [|done].
      destruct (String.eqb xml ""); [done|].
      destruct (df_empty _) eqn:He; [done|]. injection Hp as <-.
      destruct (parsed_frame_one_row _ _ _ _ He) as [Hc Hr].
      split; [done|]. split; [done|]. apply list_elem_of_here.
    + right. split; [done|]. split; [done|]. by apply list_elem_of_further.
Qed.

Lemma X16_batch_files_hold_one_record_witness :
  let out := extract_traffic_data_for_areas Samples.fromstring
               Samples.float_of_text Samples.coerce "key" "traffic_data"
               Samples.fetch Samples.clock (fun _ _ => true)
               [Samples.point] Samples.empty_disk in
  exists df,
    files out.2
      !! "traffic_data/traffic_data_10_79187-106_68831_20240101_000000.parquet"
    = Some df
    /\ columns df = traffic_columns /\ length (rows df) = 1%nat.
Proof.
  cbv zeta.
  destruct sample_point_data as (df & Hdf & _).
  assert (files (extract_traffic_data_for_areas Samples.fromstring
                   Samples.float_of_text Samples.coerce "key" "traffic_data"
                   Samples.fetch Samples.clock (fun _ _ => true)
                   [Samples.point] Samples.empty_disk).2
          !! "traffic_data/traffic_data_10_79187-106_68831_20240101_000000.parquet"
          = Some df) as Hfile.
  { rewrite extract_cons, Hdf. cbn [snd]. unfold save_to_parquet.
    cbn [files tick extract_traffic_data_for_areas foldl snd].
    apply lookup_insert_eq. }
  exists df. split; [exact Hfile|].
  destruct (X16_batch_files_hold_one_record _ _ _ _ _ _ _ _ _ _ _ _ Hfile)
    as [Hold|(Hc & Hr & _)]; [|by split].
  unfold Samples.empty_disk in Hold. cbn [files] in Hold.
  rewrite lookup_empty in Hold. discriminate Hold.
Defined.
